(** * Real Estate Investment Analyzer: the calculation engine of [app.py]

    A shallow embedding of the three calculation functions of [app.py]
    ([calculate_metrics], [calculate_cash_flow_projection], [analyze_risk])
    and of the one piece of the dashboard that reads the break-even value.

    Numbers.  Python computes with [int] and [float].  Here every number is
    an exact rational ([Q]): integer arithmetic is embedded exactly, and
    [float] arithmetic is idealised (no rounding, no overflow).  The one
    non-finite float the program creates itself, [float('inf')], is kept
    apart in [pyfloat].  Quantities that the program uses as an integer
    count (the loan term in years, the number of projection years) are [Z].

    Errors.  A division whose divisor can be zero, and a power whose
    exponent can be negative, raise [ZeroDivisionError] in Python; they are
    modelled in the error monad [result].  A division by a non-zero literal
    ([/ 100], [/ 12], [/ 27.5]) cannot raise and is written with [Qdiv].

    What exact numbers leave out.  In double precision [1 + r] is [1.0] for
    a tiny positive [r], so the divisor [(1 + r)**n - 1] of the amortisation
    formula can be [0.0] and the division raise although [r > 0]; and a
    power can overflow and raise [OverflowError].  The exact model has
    neither failure.  For that reason nothing below states that
    [calculate_metrics] or [calculate_cash_flow_projection] returns for
    every input: their properties are stated of every result they return,
    and shown on concrete runs.  [analyze_risk] has no such operation: its
    only failure is the division by [rental_income * 12], which is zero
    exactly when [rental_income] is. *)

From Stdlib Require Import QArith Qpower Qfield Qminmax Lqa ZArith List String Bool Lia.
Import ListNotations.

Open Scope string_scope.
Open Scope Q_scope.

(** ** Python values and exceptions *)

Module Py.

Inductive exn : Type :=
| ZeroDivisionError.

Inductive result (A : Type) : Type :=
| Ok (a : A)
| Raise (e : exn).

Arguments Ok {A} a.
Arguments Raise {A} e.

Definition bind {A B : Type} (m : result A) (k : A -> result B) : result B :=
  match m with
  | Ok a => k a
  | Raise e => Raise e
  end.

(** [for x in xs: out.append(f x)], stopping at the first exception. *)
Fixpoint mapM {A B : Type} (f : A -> result B) (xs : list A) : result (list B) :=
  match xs with
  | [] => Ok []
  | x :: xs' =>
      bind (f x) (fun y => bind (mapM f xs') (fun ys => Ok (y :: ys)))
  end.

(** [a < b] on numbers, as a boolean. *)
Definition ltb (a b : Q) : bool := negb (Qle_bool b a).

(** [a / b]: true division, raising on a zero divisor. *)
Definition div (a b : Q) : result Q :=
  if Qeq_bool b 0 then Raise ZeroDivisionError else Ok (a / b).

(** [b ** n] for an integer exponent: zero to a negative power raises.
    (A float power that overflows raises too; exact numbers do not
    overflow.) *)
Definition pow (b : Q) (n : Z) : result Q :=
  if (n <? 0)%Z && Qeq_bool b 0 then Raise ZeroDivisionError else Ok (b ^ n).

(** [max(a, b)]: the first argument is kept unless the second is
    strictly greater. *)
Definition max (a b : Q) : Q := if ltb a b then b else a.

(** [range(lo, hi)]. *)
Definition range (lo hi : Z) : list Z :=
  map (fun i => (lo + Z.of_nat i)%Z) (seq 0 (Z.to_nat (hi - lo))).

(** [sum(xs)] over integers. *)
Definition sum (xs : list Z) : Z := fold_left Z.add xs 0%Z.

(** A [float] as the engine produces it: a finite value, or the value of
    [float('inf')]. *)
Inductive pyfloat : Type :=
| Finite (q : Q)
| PosInf.

(** [x != float('inf')]. *)
Definition ne_inf (x : pyfloat) : bool :=
  match x with
  | Finite _ => true
  | PosInf => false
  end.

End Py.

Import Py.

Notation "x <- m ;; k" := (Py.bind m (fun x => k))
  (at level 61, m at next level, right associativity).

(** ** Constant tables *)

(** The keys of [MARKET_CONDITIONS]; the interface offers exactly these in
    a select box. *)
Inductive market_condition : Type :=
| StrongGrowth
| Stable
| Declining
| Volatile.

Definition label (m : market_condition) : string :=
  match m with
  | StrongGrowth => "Strong Growth"
  | Stable => "Stable"
  | Declining => "Declining"
  | Volatile => "Volatile"
  end.

Record market_impact : Type := mkImpact {
  vacancy_impact : Q;
  appreciation_impact : Q;
  price_trend : Q
}.

Definition MARKET_CONDITIONS (m : market_condition) : market_impact :=
  match m with
  | StrongGrowth => mkImpact (-2) 2 5
  | Stable => mkImpact 0 0 2
  | Declining => mkImpact 3 (-2) (-3)
  | Volatile => mkImpact 2 1 0
  end.

(** ** [calculate_metrics] *)

Record Metrics : Type := mkMetrics {
  monthly_cash_flow : Q;
  annual_cash_flow : Q;
  roi : Q;
  cap_rate : Q;
  cash_on_cash : Q;
  mortgage_payment : Q;
  break_even_months : pyfloat;
  tax_savings : Q;
  after_tax_cash_flow : Q;
  future_value_5yr : Q;
  future_value_10yr : Q;
  future_value_20yr : Q;
  total_equity_5yr : Q;
  total_equity_10yr : Q;
  initial_investment : Q
}.

(** The amortisation formula, written twice in the source with the same
    text: [(L * r * (1 + r)**n) / ((1 + r)**n - 1)].  The division raises
    when the divisor is zero; over exact numbers that needs [(1 + r)**n =
    1], while in doubles a tiny [r] is enough. *)
Definition amortized_payment (loan_amount monthly_interest_rate : Q)
    (num_payments : Z) : result Q :=
  p1 <- pow (1 + monthly_interest_rate) num_payments ;;
  p2 <- pow (1 + monthly_interest_rate) num_payments ;;
  div (loan_amount * monthly_interest_rate * p1) (p2 - 1).

(** Lines 123-133: loan details and monthly payment inside
    [calculate_metrics]; the rate and the number of payments are clamped
    to zero first. *)
Definition metrics_mortgage_payment (price down_payment loan_rate : Q)
    (loan_term : Z) : result Q :=
  let loan_amount := price - down_payment in
  let monthly_interest_rate :=
    if ltb 0 loan_rate then loan_rate / 12 / 100 else 0 in
  let num_payments := if (0 <? loan_term)%Z then (loan_term * 12)%Z else 0%Z in
  if ltb 0 loan_amount && ltb 0 monthly_interest_rate && (0 <? num_payments)%Z
  then amortized_payment loan_amount monthly_interest_rate num_payments
  else Ok 0.

Definition calculate_metrics
    (price rental_income expenses down_payment loan_rate : Q) (loan_term : Z)
    (vacancy_rate appreciation_rate tax_rate closing_costs renovation_costs : Q)
    (annual_income_growth annual_expense_growth : Q) : result Metrics :=
  let initial_investment := down_payment + closing_costs + renovation_costs in
  let loan_amount := price - down_payment in
  mortgage_payment <-
    metrics_mortgage_payment price down_payment loan_rate loan_term ;;
  let effective_rental_income := rental_income * (1 - vacancy_rate / 100) in
  let monthly_cash_flow := effective_rental_income - expenses - mortgage_payment in
  let annual_cash_flow := monthly_cash_flow * 12 in
  roi <-
    (if ltb 0 initial_investment
     then q <- div annual_cash_flow initial_investment ;; Ok (q * 100)
     else Ok 0) ;;
  cap_rate <-
    (if ltb 0 price
     then q <- div ((effective_rental_income - expenses) * 12) price ;;
          Ok (q * 100)
     else Ok 0) ;;
  cash_on_cash <-
    (if ltb 0 initial_investment
     then q <- div annual_cash_flow initial_investment ;; Ok (q * 100)
     else Ok 0) ;;
  break_even <-
    (if ltb 0 monthly_cash_flow
     then q <- div initial_investment monthly_cash_flow ;; Ok (Finite q)
     else Ok PosInf) ;;
  let depreciation_period := 275 # 10 in
  let annual_depreciation := (price - price * (2 # 10)) / depreciation_period in
  let taxable_income :=
    effective_rental_income * 12 - expenses * 12 - annual_depreciation
    - mortgage_payment * 12 * loan_rate / 100 in
  let tax_savings := max 0 (taxable_income * tax_rate / 100) in
  let after_tax_cash_flow := annual_cash_flow + tax_savings in
  a5 <- pow (1 + appreciation_rate / 100) 5 ;;
  let future_value_5yr := price * a5 in
  a10 <- pow (1 + appreciation_rate / 100) 10 ;;
  let future_value_10yr := price * a10 in
  a20 <- pow (1 + appreciation_rate / 100) 20 ;;
  let future_value_20yr := price * a20 in
  let remaining_balance := loan_amount in
  let total_equity_5yr :=
    if (5 <=? loan_term)%Z then future_value_5yr - remaining_balance
    else future_value_5yr in
  let total_equity_10yr :=
    if (10 <=? loan_term)%Z then future_value_10yr - remaining_balance
    else future_value_10yr in
  Ok {| monthly_cash_flow := monthly_cash_flow;
        annual_cash_flow := annual_cash_flow;
        roi := roi;
        cap_rate := cap_rate;
        cash_on_cash := cash_on_cash;
        mortgage_payment := mortgage_payment;
        break_even_months := break_even;
        tax_savings := tax_savings;
        after_tax_cash_flow := after_tax_cash_flow;
        future_value_5yr := future_value_5yr;
        future_value_10yr := future_value_10yr;
        future_value_20yr := future_value_20yr;
        total_equity_5yr := total_equity_5yr;
        total_equity_10yr := total_equity_10yr;
        initial_investment := initial_investment |}.

(** The break-even cell of [display_metrics_dashboard] (lines 330-333):
    the value is shown unless it equals [float('inf')]. *)
Inductive cell : Type :=
| Shown (x : pyfloat)
| NotApplicable.

Definition display_break_even (m : Metrics) : cell :=
  if ne_inf (break_even_months m) then Shown (break_even_months m)
  else NotApplicable.

(** ** [calculate_cash_flow_projection] *)

Record ProjectionRow : Type := mkRow {
  year : Z;
  property_value : Q;
  annual_income : Q;
  annual_expenses : Q;
  annual_mortgage : Q;
  row_annual_cash_flow : Q;
  cumulative_cash_flow : Q
}.

(** Lines 197-207: the same payment inside
    [calculate_cash_flow_projection]; here the rate and the number of
    payments are used as they come. *)
Definition projection_mortgage_payment (price down_payment loan_rate : Q)
    (loan_term : Z) : result Q :=
  let loan_amount := price - down_payment in
  let monthly_interest_rate := loan_rate / 12 / 100 in
  let num_payments := (loan_term * 12)%Z in
  if ltb 0 loan_amount && ltb 0 monthly_interest_rate && (0 <? num_payments)%Z
  then amortized_payment loan_amount monthly_interest_rate num_payments
  else Ok 0.

(** The body of the [for year in range(1, years + 1)] loop. *)
Definition projection_row
    (price rental_income expenses vacancy_rate appreciation_rate : Q)
    (annual_income_growth annual_expense_growth mortgage_payment : Q)
    (year : Z) : result ProjectionRow :=
  gi <- pow (1 + annual_income_growth / 100) (year - 1) ;;
  let year_rental_income := rental_income * gi in
  ge <- pow (1 + annual_expense_growth / 100) (year - 1) ;;
  let year_expenses := expenses * ge in
  let effective_rental_income := year_rental_income * (1 - vacancy_rate / 100) in
  let annual_mortgage := mortgage_payment * 12 in
  let annual_income := effective_rental_income * 12 in
  let annual_expenses := year_expenses * 12 in
  let annual_cash_flow := annual_income - annual_expenses - annual_mortgage in
  ga <- pow (1 + appreciation_rate / 100) year ;;
  let property_value := price * ga in
  Ok {| year := year;
        property_value := property_value;
        annual_income := annual_income;
        annual_expenses := annual_expenses;
        annual_mortgage := annual_mortgage;
        row_annual_cash_flow := annual_cash_flow;
        cumulative_cash_flow := annual_cash_flow * inject_Z year |}.

Definition calculate_cash_flow_projection
    (price rental_income expenses down_payment loan_rate : Q) (loan_term : Z)
    (vacancy_rate appreciation_rate : Q) (years : Z)
    (annual_income_growth annual_expense_growth : Q)
    : result (list ProjectionRow) :=
  mortgage_payment <-
    projection_mortgage_payment price down_payment loan_rate loan_term ;;
  mapM (projection_row price rental_income expenses vacancy_rate
          appreciation_rate annual_income_growth annual_expense_growth
          mortgage_payment)
       (range 1 (years + 1)).

(** ** [analyze_risk] *)

(** An f-string, as the sequence of its literal and interpolated parts. *)
Inductive fragment : Type :=
| Text (s : string)      (* literal text, or an interpolated string *)
| Num (q : Q)            (* [{x}] *)
| Num1 (q : Q).          (* [{x:.1f}] *)

Record RiskFactor : Type := mkFactor {
  score : Z;
  description : list fragment
}.

Record RiskAssessment : Type := mkRisk {
  overall_risk : string;
  risk_class : string;
  risk_score : Q;
  factors : list (string * RiskFactor)
}.

(** [1 if x < lo else (2 if x < hi else 3)] and its companion choosing a
    word: the conditional expression every numeric factor uses. *)
Definition tier {A : Type} (x lo hi : Q) (a b c : A) : A :=
  if ltb x lo then a else if ltb x hi then b else c.

Definition market_tier {A : Type} (m : market_condition) (a b c : A) : A :=
  match m with
  | StrongGrowth | Stable => a
  | Volatile => b
  | Declining => c
  end.

(** The [risk_factors] dictionary literal (lines 253-277), in insertion
    order. *)
Definition risk_factors
    (adjusted_vacancy price_to_rent expense_ratio : Q)
    (market_condition : market_condition) (property_age : Q)
    : list (string * RiskFactor) :=
  [ ("Vacancy Risk",
     {| score := (tier adjusted_vacancy 5 8 1 2 3)%Z;
        description :=
          [ Text "Adjusted vacancy rate of "; Num adjusted_vacancy;
            Text "% indicates ";
            Text (tier adjusted_vacancy 5 8 "low" "moderate" "high");
            Text " risk." ] |});
    ("Price to Rent Ratio",
     {| score := (tier price_to_rent 15 20 1 2 3)%Z;
        description :=
          [ Text "Price to annual rent ratio of "; Num1 price_to_rent;
            Text " indicates ";
            Text (tier price_to_rent 15 20 "good" "fair" "poor");
            Text " cash flow potential." ] |});
    ("Expense Ratio",
     {| score := (tier expense_ratio 35 45 1 2 3)%Z;
        description :=
          [ Text "Expense ratio of "; Num1 expense_ratio; Text "% is ";
            Text (tier expense_ratio 35 45 "favorable" "typical" "concerning");
            Text "." ] |});
    ("Market Condition",
     {| score := (market_tier market_condition 1 2 3)%Z;
        description :=
          [ Text (label market_condition); Text " market suggests ";
            Text (market_tier market_condition "low" "moderate" "high");
            Text " risk." ] |});
    ("Property Age",
     {| score := (tier property_age 10 30 1 2 3)%Z;
        description :=
          [ Num property_age; Text " year old property has ";
            Text (tier property_age 10 30 "low" "moderate" "high");
            Text " maintenance risk." ] |}) ].

Definition analyze_risk
    (price vacancy_rate expenses rental_income : Q)
    (market_condition : market_condition) (property_age : Q)
    (location : string) : result RiskAssessment :=
  let adjusted_vacancy :=
    vacancy_rate + vacancy_impact (MARKET_CONDITIONS market_condition) in
  price_to_rent <- div price (rental_income * 12) ;;
  e <- div (expenses * 12) (rental_income * 12) ;;
  let expense_ratio := e * 100 in
  let risk_factors :=
    risk_factors adjusted_vacancy price_to_rent expense_ratio
      market_condition property_age in
  avg_score <-
    div (inject_Z (sum (map (fun kv => score (snd kv)) risk_factors)))
        (inject_Z (Z.of_nat (List.length risk_factors))) ;;
  let '(risk_level, risk_class) :=
    if ltb avg_score (17 # 10) then ("Low", "risk-low")
    else if ltb avg_score (23 # 10) then ("Medium", "risk-medium")
    else ("High", "risk-high") in
  Ok {| overall_risk := risk_level;
        risk_class := risk_class;
        risk_score := avg_score;
        factors := risk_factors |}.

(** Lookup in the [factors] dictionary. *)
Fixpoint lookup (k : string) (d : list (string * RiskFactor)) : option RiskFactor :=
  match d with
  | [] => None
  | (k', v) :: d' => if String.eqb k k' then Some v else lookup k d'
  end.

(** ** Closed forms

    What each function returns when none of its operations raises, with
    the guarded operations written as plain quotients and powers; the
    lemmas below relate the functions to them. *)

(** The amortised payment. *)
Definition payment_formula (L r : Q) (n : Z) : Q :=
  L * r * (1 + r) ^ n / ((1 + r) ^ n - 1).

(** The dictionary the function builds once the payment [mp] is known,
    with every guarded division written as a plain quotient. *)
Definition metrics_record
    (price rental_income expenses down_payment loan_rate : Q) (loan_term : Z)
    (vacancy_rate appreciation_rate tax_rate closing_costs renovation_costs : Q)
    (mp : Q) : Metrics :=
  let ii := down_payment + closing_costs + renovation_costs in
  let eri := rental_income * (1 - vacancy_rate / 100) in
  let mcf := eri - expenses - mp in
  let acf := mcf * 12 in
  let ti := eri * 12 - expenses * 12
            - (price - price * (2 # 10)) / (275 # 10)
            - mp * 12 * loan_rate / 100 in
  let ts := max 0 (ti * tax_rate / 100) in
  let fv (y : Z) := price * (1 + appreciation_rate / 100) ^ y in
  {| monthly_cash_flow := mcf;
     annual_cash_flow := acf;
     roi := if ltb 0 ii then acf / ii * 100 else 0;
     cap_rate := if ltb 0 price then (eri - expenses) * 12 / price * 100 else 0;
     cash_on_cash := if ltb 0 ii then acf / ii * 100 else 0;
     mortgage_payment := mp;
     break_even_months := if ltb 0 mcf then Finite (ii / mcf) else PosInf;
     tax_savings := ts;
     after_tax_cash_flow := acf + ts;
     future_value_5yr := fv 5%Z;
     future_value_10yr := fv 10%Z;
     future_value_20yr := fv 20%Z;
     total_equity_5yr :=
       if (5 <=? loan_term)%Z then fv 5%Z - (price - down_payment) else fv 5%Z;
     total_equity_10yr :=
       if (10 <=? loan_term)%Z then fv 10%Z - (price - down_payment)
       else fv 10%Z;
     initial_investment := ii |}.

(** The row of year [t] once the payment [mp] is known. *)
Definition row_at
    (price rental_income expenses vacancy_rate appreciation_rate : Q)
    (annual_income_growth annual_expense_growth mp : Q) (t : Z)
    : ProjectionRow :=
  let income :=
    rental_income * (1 + annual_income_growth / 100) ^ (t - 1)
    * (1 - vacancy_rate / 100) * 12 in
  let outgo := expenses * (1 + annual_expense_growth / 100) ^ (t - 1) * 12 in
  {| year := t;
     property_value := price * (1 + appreciation_rate / 100) ^ t;
     annual_income := income;
     annual_expenses := outgo;
     annual_mortgage := mp * 12;
     row_annual_cash_flow := income - outgo - mp * 12;
     cumulative_cash_flow := (income - outgo - mp * 12) * inject_Z t |}.

(** The assessment [analyze_risk] builds once both quotients are known. *)
Definition risk_record
    (price vacancy_rate expenses rental_income : Q)
    (market : market_condition) (property_age : Q) : RiskAssessment :=
  let adjusted_vacancy :=
    vacancy_rate + vacancy_impact (MARKET_CONDITIONS market) in
  let price_to_rent := price / (rental_income * 12) in
  let expense_ratio := expenses * 12 / (rental_income * 12) * 100 in
  let fs :=
    risk_factors adjusted_vacancy price_to_rent expense_ratio market
      property_age in
  let avg :=
    inject_Z (sum (map (fun kv => score (snd kv)) fs))
    / inject_Z (Z.of_nat (List.length fs)) in
  {| overall_risk :=
       if ltb avg (17 # 10) then "Low"
       else if ltb avg (23 # 10) then "Medium" else "High";
     risk_class :=
       if ltb avg (17 # 10) then "risk-low"
       else if ltb avg (23 # 10) then "risk-medium" else "risk-high";
     risk_score := avg;
     factors := fs |}.

(** ** Pieces of [main] that read the engine's results *)

(** The delta shown under each future value (lines 510-517):
    [((metrics['future_value_5yr'] - price) / price) * 100]. *)
Definition value_change_percent (future_value price : Q) : result Q :=
  q <- div (future_value - price) price ;;
  Ok (q * 100).

(** The down payment the form derives from its percentage slider (lines
    392-393 and 434-435): [price * down_payment_percent / 100]. *)
Definition form_down_payment (price : Q) (down_payment_percent : Z) : Q :=
  price * inject_Z down_payment_percent / 100.

(** The conditional of the factor cards (lines 614, 617, 623, 626):
    [a if score == 1 else (b if score == 2 else c)]. *)
Definition by_score {A : Type} (score : Z) (a b c : A) : A :=
  if (score =? 1)%Z then a else if (score =? 2)%Z then b else c.

Definition factor_level (f : RiskFactor) : string :=
  by_score (score f) "Low" "Medium" "High".

Definition factor_class (f : RiskFactor) : string :=
  by_score (score f) "risk-low" "risk-medium" "risk-high".

(** The sum of a list of numbers, for running totals. *)
Definition Qsum (xs : list Q) : Q := fold_right Qplus 0 xs.

(** * Properties *)

(** ** The primitives *)

Section Primitives.

Lemma ltb_lt (a b : Q) : ltb a b = true <-> a < b.
Proof.
  unfold ltb. rewrite negb_true_iff. split.
  - intro H. apply Qnot_le_lt. intro Hle.
    apply Qle_bool_iff in Hle. congruence.
  - intro H. destruct (Qle_bool b a) eqn:E; [|reflexivity].
    apply Qle_bool_iff in E. exfalso. exact (Qlt_not_le _ _ H E).
Qed.

Lemma ltb_ge (a b : Q) : ltb a b = false <-> b <= a.
Proof.
  unfold ltb. rewrite negb_false_iff. apply Qle_bool_iff.
Qed.

Lemma div_ok (a b : Q) : ~ b == 0 -> div a b = Ok (a / b).
Proof.
  intro H. unfold div. destruct (Qeq_bool b 0) eqn:E; [|reflexivity].
  apply Qeq_bool_eq in E. contradiction.
Qed.

Lemma div_zero (a b : Q) : b == 0 -> div a b = Raise ZeroDivisionError.
Proof.
  intro H. unfold div. now rewrite (Qeq_eq_bool _ _ H).
Qed.

Lemma div_pos (a b : Q) : 0 < b -> div a b = Ok (a / b).
Proof.
  intro H. apply div_ok. intro E. rewrite E in H.
  exact (Qlt_irrefl _ H).
Qed.

Lemma pow_nonneg (b : Q) (n : Z) : (0 <= n)%Z -> pow b n = Ok (b ^ n).
Proof.
  intro H. unfold pow.
  replace (n <? 0)%Z with false by (symmetry; apply Z.ltb_ge; exact H).
  reflexivity.
Qed.

Lemma max_ge_l (a b : Q) : a <= max a b.
Proof.
  unfold max. destruct (ltb a b) eqn:E.
  - apply ltb_lt in E. apply Qlt_le_weak. exact E.
  - apply Qle_refl.
Qed.

Lemma max_Qmax (a b b' : Q) : b == b' -> max a b == Qmax a b'.
Proof.
  intro Hb. unfold max. destruct (ltb a b) eqn:E.
  - apply ltb_lt in E. rewrite Q.max_r.
    + exact Hb.
    + rewrite <- Hb. apply Qlt_le_weak. exact E.
  - apply ltb_ge in E. rewrite Q.max_l.
    + reflexivity.
    + rewrite <- Hb. exact E.
Qed.

Lemma mapM_pure {A B : Type} (f : A -> result B) (g : A -> B) (xs : list A) :
  (forall x, In x xs -> f x = Ok (g x)) -> mapM f xs = Ok (map g xs).
Proof.
  induction xs as [|x xs IH]; intro H; simpl.
  - reflexivity.
  - rewrite (H x (or_introl eq_refl)). simpl.
    rewrite IH by (intros y Hy; apply H; right; exact Hy).
    reflexivity.
Qed.

Lemma range_length (lo hi : Z) :
  List.length (range lo hi) = Z.to_nat (hi - lo).
Proof.
  unfold range. now rewrite length_map, length_seq.
Qed.

Lemma range_In (lo hi x : Z) : In x (range lo hi) -> (lo <= x < hi)%Z.
Proof.
  unfold range. rewrite in_map_iff. intros [i [<- Hi]].
  apply in_seq in Hi. lia.
Qed.

Lemma range_nth (lo hi : Z) (i : nat) :
  (i < Z.to_nat (hi - lo))%nat ->
  nth_error (range lo hi) i = Some (lo + Z.of_nat i)%Z.
Proof.
  intro H. unfold range.
  rewrite nth_error_map, nth_error_seq.
  apply Nat.ltb_lt in H. rewrite H. reflexivity.
Qed.

End Primitives.

(** ** The mortgage payment *)

Section Mortgage.

Variables price down_payment loan_rate : Q.
Variable loan_term : Z.

Lemma rate_pos : 0 < loan_rate / 12 / 100 <-> 0 < loan_rate.
Proof.
  split; intro H.
  - assert (E : loan_rate == loan_rate / 12 / 100 * 1200) by field. lra.
  - assert (E : loan_rate / 12 / 100 == loan_rate * (1 # 1200)) by field. lra.
Qed.

Lemma growth_gt_1 (x : Q) (k : Z) : 0 < x -> (0 < k)%Z -> 1 < (1 + x) ^ k.
Proof.
  intros Hx Hk. apply Qpower_1_lt; [lra | exact Hk].
Qed.

Lemma amortized_payment_ok (a x : Q) (k : Z) :
  0 < x -> (0 < k)%Z -> amortized_payment a x k = Ok (payment_formula a x k).
Proof.
  intros Hx Hk. unfold amortized_payment, payment_formula.
  rewrite pow_nonneg by lia. simpl.
  apply div_pos. pose proof (growth_gt_1 x k Hx Hk). lra.
Qed.

Lemma payment_formula_pos (a x : Q) (k : Z) :
  0 < a -> 0 < x -> (0 < k)%Z -> 0 < payment_formula a x k.
Proof.
  intros Ha Hx Hk. unfold payment_formula.
  pose proof (growth_gt_1 x k Hx Hk) as Hg.
  apply Qlt_shift_div_l; [lra|].
  rewrite Qmult_0_l.
  apply Qmult_lt_0_compat; [apply Qmult_lt_0_compat; assumption | lra].
Qed.

(** With a loan, a positive rate and a positive term, both call sites
    evaluate the closed form on the unclamped rate and payment count; over
    exact numbers its divisor is positive. *)
Lemma metrics_mortgage_payment_loan :
  0 < price - down_payment -> 0 < loan_rate -> (0 < loan_term)%Z ->
  metrics_mortgage_payment price down_payment loan_rate loan_term
  = Ok (payment_formula (price - down_payment) (loan_rate / 12 / 100)
          (loan_term * 12)).
Proof.
  intros HL Hr Ht. unfold metrics_mortgage_payment.
  rewrite (proj2 (ltb_lt 0 loan_rate) Hr).
  rewrite (proj2 (Z.ltb_lt 0 loan_term) Ht).
  rewrite (proj2 (ltb_lt 0 (price - down_payment)) HL).
  rewrite (proj2 (ltb_lt 0 (loan_rate / 12 / 100)) (proj2 rate_pos Hr)).
  rewrite (proj2 (Z.ltb_lt 0 (loan_term * 12)) ltac:(lia)).
  simpl andb. cbv iota.
  apply amortized_payment_ok; [exact (proj2 rate_pos Hr) | lia].
Qed.

Lemma projection_mortgage_payment_loan :
  0 < price - down_payment -> 0 < loan_rate -> (0 < loan_term)%Z ->
  projection_mortgage_payment price down_payment loan_rate loan_term
  = Ok (payment_formula (price - down_payment) (loan_rate / 12 / 100)
          (loan_term * 12)).
Proof.
  intros HL Hr Ht. unfold projection_mortgage_payment.
  rewrite (proj2 (ltb_lt 0 (price - down_payment)) HL).
  rewrite (proj2 (ltb_lt 0 (loan_rate / 12 / 100)) (proj2 rate_pos Hr)).
  rewrite (proj2 (Z.ltb_lt 0 (loan_term * 12)) ltac:(lia)).
  simpl andb. cbv iota.
  apply amortized_payment_ok; [exact (proj2 rate_pos Hr) | lia].
Qed.

(** Otherwise both take the [else] branch. *)
Lemma metrics_mortgage_payment_none :
  price - down_payment <= 0 \/ loan_rate <= 0 \/ (loan_term <= 0)%Z ->
  metrics_mortgage_payment price down_payment loan_rate loan_term = Ok 0.
Proof.
  intro H. unfold metrics_mortgage_payment.
  destruct (ltb 0 (price - down_payment)) eqn:EL; [|reflexivity].
  destruct (ltb 0 loan_rate) eqn:Er; [|reflexivity].
  destruct (0 <? loan_term)%Z eqn:Et;
    [|now rewrite andb_false_r].
  apply ltb_lt in EL, Er. apply Z.ltb_lt in Et.
  exfalso. destruct H as [H|[H|H]]; [lra | lra | lia].
Qed.

Lemma projection_mortgage_payment_none :
  price - down_payment <= 0 \/ loan_rate <= 0 \/ (loan_term <= 0)%Z ->
  projection_mortgage_payment price down_payment loan_rate loan_term = Ok 0.
Proof.
  intro H. unfold projection_mortgage_payment.
  destruct (ltb 0 (price - down_payment)) eqn:EL; [|reflexivity].
  destruct (ltb 0 (loan_rate / 12 / 100)) eqn:Er; [|reflexivity].
  destruct (0 <? loan_term * 12)%Z eqn:Et; [|reflexivity].
  apply ltb_lt in EL, Er. apply Z.ltb_lt in Et. apply rate_pos in Er.
  exfalso. destruct H as [H|[H|H]]; [lra | lra | lia].
Qed.

Lemma loan_or_none :
  (0 < price - down_payment /\ 0 < loan_rate /\ (0 < loan_term)%Z)
  \/ (price - down_payment <= 0 \/ loan_rate <= 0 \/ (loan_term <= 0)%Z).
Proof.
  destruct (Qlt_le_dec 0 (price - down_payment)); [|now right; left].
  destruct (Qlt_le_dec 0 loan_rate); [|now right; right; left].
  destruct (Z_lt_le_dec 0 loan_term); [now left | now right; right; right].
Qed.

End Mortgage.

(** ** [calculate_metrics], once its payment block has returned *)

Section MetricsUnfolded.

Variables price rental_income expenses down_payment loan_rate : Q.
Variable loan_term : Z.
Variables vacancy_rate appreciation_rate tax_rate : Q.
Variables closing_costs renovation_costs : Q.
Variables annual_income_growth annual_expense_growth : Q.

Lemma guarded_div (a b : Q) :
  (if ltb 0 b then q <- div a b ;; Ok (q * 100) else Ok 0)
  = Ok (if ltb 0 b then a / b * 100 else 0).
Proof.
  destruct (ltb 0 b) eqn:E; [|reflexivity].
  apply ltb_lt in E. now rewrite (div_pos a b E).
Qed.

Lemma guarded_break_even (a b : Q) :
  (if ltb 0 b then q <- div a b ;; Ok (Finite q) else Ok PosInf)
  = Ok (if ltb 0 b then Finite (a / b) else PosInf).
Proof.
  destruct (ltb 0 b) eqn:E; [|reflexivity].
  apply ltb_lt in E. now rewrite (div_pos a b E).
Qed.

Lemma calculate_metrics_eq (mp : Q) :
  metrics_mortgage_payment price down_payment loan_rate loan_term = Ok mp ->
  calculate_metrics price rental_income expenses down_payment loan_rate
    loan_term vacancy_rate appreciation_rate tax_rate closing_costs
    renovation_costs annual_income_growth annual_expense_growth
  = Ok (metrics_record price rental_income expenses down_payment loan_rate
         loan_term vacancy_rate appreciation_rate tax_rate closing_costs
         renovation_costs mp).
Proof.
  intro Hmp. unfold calculate_metrics. rewrite Hmp. cbn [bind].
  rewrite !guarded_div, guarded_break_even. cbn [bind].
  rewrite !pow_nonneg by lia. cbn [bind].
  reflexivity.
Qed.

(** Every dictionary the function returns was built from a payment that
    its payment block returned. *)
Lemma calculate_metrics_inv (m : Metrics) :
  calculate_metrics price rental_income expenses down_payment loan_rate
    loan_term vacancy_rate appreciation_rate tax_rate closing_costs
    renovation_costs annual_income_growth annual_expense_growth
  = Ok m ->
  exists mp,
    metrics_mortgage_payment price down_payment loan_rate loan_term = Ok mp
    /\ m = metrics_record price rental_income expenses down_payment loan_rate
             loan_term vacancy_rate appreciation_rate tax_rate closing_costs
             renovation_costs mp.
Proof.
  intro H.
  destruct (metrics_mortgage_payment price down_payment loan_rate loan_term)
    as [mp|err] eqn:E.
  - rewrite (calculate_metrics_eq mp E) in H. injection H as <-.
    exists mp. split; reflexivity.
  - unfold calculate_metrics in H. rewrite E in H. discriminate.
Qed.

Lemma metrics_payment_cases (mp : Q) :
  metrics_mortgage_payment price down_payment loan_rate loan_term = Ok mp ->
  (0 < price - down_payment /\ 0 < loan_rate /\ (0 < loan_term)%Z
   /\ mp = payment_formula (price - down_payment) (loan_rate / 12 / 100)
             (loan_term * 12))
  \/ ((price - down_payment <= 0 \/ loan_rate <= 0 \/ (loan_term <= 0)%Z)
      /\ mp = 0).
Proof.
  intro Hmp.
  destruct (loan_or_none price down_payment loan_rate loan_term)
    as [[HL [Hr Ht]]|H].
  - left. rewrite (metrics_mortgage_payment_loan _ _ _ _ HL Hr Ht) in Hmp.
    injection Hmp as <-. now repeat split.
  - right. rewrite (metrics_mortgage_payment_none _ _ _ _ H) in Hmp.
    injection Hmp as <-. now split.
Qed.

End MetricsUnfolded.

Ltac open_metrics H mp Hmp :=
  apply calculate_metrics_inv in H; destruct H as [mp [Hmp ->]];
  unfold metrics_record;
  cbn [monthly_cash_flow annual_cash_flow roi cap_rate cash_on_cash
       mortgage_payment break_even_months tax_savings after_tax_cash_flow
       future_value_5yr future_value_10yr future_value_20yr
       total_equity_5yr total_equity_10yr initial_investment].

(** ** The metrics dictionary *)

Section MetricsProperties.

Variables price rental_income expenses down_payment loan_rate : Q.
Variable loan_term : Z.
Variables vacancy_rate appreciation_rate tax_rate : Q.
Variables closing_costs renovation_costs : Q.
Variables annual_income_growth annual_expense_growth : Q.

(** C1, as the code has it: in every dictionary the function returns, the
    break-even value is [initial_investment / monthly_cash_flow] when the
    monthly cash flow is positive, and it is the float [float('inf')]
    whenever the monthly cash flow is zero or negative.  That infinity is
    the marker: the dashboard shows "N/A" exactly in that case. *)
Theorem break_even_quotient_or_float_inf (m : Metrics) :
  calculate_metrics price rental_income expenses down_payment loan_rate
    loan_term vacancy_rate appreciation_rate tax_rate closing_costs
    renovation_costs annual_income_growth annual_expense_growth
  = Ok m ->
  initial_investment m = down_payment + closing_costs + renovation_costs
  /\ (0 < monthly_cash_flow m ->
      break_even_months m
      = Finite (initial_investment m / monthly_cash_flow m))
  /\ (monthly_cash_flow m <= 0 -> break_even_months m = PosInf)
  /\ (monthly_cash_flow m <= 0 <-> display_break_even m = NotApplicable).
Proof.
  intro H. open_metrics H mp Hmp. unfold display_break_even.
  cbn [break_even_months].
  set (mcf := rental_income * (1 - vacancy_rate / 100) - expenses - mp).
  split; [reflexivity|].
  destruct (ltb 0 mcf) eqn:E.
  - apply ltb_lt in E. repeat split; try reflexivity.
    + intro H. lra.
    + intro H. lra.
    + cbn. discriminate.
  - apply ltb_ge in E. repeat split; try reflexivity; try (intros; assumption).
    intro H. lra.
Qed.


(** C6: in every dictionary the function returns, [tax_savings] is
    [max(0, taxable_income * tax_rate / 100)] with [taxable_income =
    effective_rental_income*12 - expenses*12 - (price*0.8)/27.5 -
    mortgage_payment*12*loan_rate/100], it is never negative, and
    [after_tax_cash_flow = annual_cash_flow + tax_savings]. *)
Theorem tax_savings_is_clamped (m : Metrics) :
  calculate_metrics price rental_income expenses down_payment loan_rate
    loan_term vacancy_rate appreciation_rate tax_rate closing_costs
    renovation_costs annual_income_growth annual_expense_growth
  = Ok m ->
  tax_savings m
  == Qmax 0
       ((rental_income * (1 - vacancy_rate / 100) * 12 - expenses * 12
         - price * (8 # 10) / (275 # 10)
         - mortgage_payment m * 12 * loan_rate / 100)
        * tax_rate / 100)
  /\ 0 <= tax_savings m
  /\ after_tax_cash_flow m = annual_cash_flow m + tax_savings m.
Proof.
  intro Hm. open_metrics Hm mp Hmp.
  split; [|split; [apply max_ge_l | reflexivity]].
  apply max_Qmax. field.
Qed.

(** C9: in every dictionary the function returns, [roi] and
    [cash_on_cash] are the same value, [annual_cash_flow /
    initial_investment * 100] with [initial_investment = down_payment +
    closing_costs + renovation_costs] when that is positive and [0] when it
    is zero (or negative): the division is guarded and is not attempted
    then; and [cap_rate] is [0] when the price is zero. *)
Theorem roi_equals_cash_on_cash (m : Metrics) :
  calculate_metrics price rental_income expenses down_payment loan_rate
    loan_term vacancy_rate appreciation_rate tax_rate closing_costs
    renovation_costs annual_income_growth annual_expense_growth
  = Ok m ->
  initial_investment m = down_payment + closing_costs + renovation_costs
  /\ roi m = cash_on_cash m
  /\ (0 < initial_investment m ->
      roi m = annual_cash_flow m / initial_investment m * 100)
  /\ (initial_investment m <= 0 -> roi m = 0)
  /\ (price <= 0 -> cap_rate m = 0)
  /\ (0 < price ->
      cap_rate m
      = (rental_income * (1 - vacancy_rate / 100) - expenses) * 12
        / price * 100).
Proof.
  intro Hm. open_metrics Hm mp Hmp.
  set (ii := down_payment + closing_costs + renovation_costs).
  do 2 (split; [reflexivity|]).
  split; [|split; [|split]].
  - intro H. now rewrite (proj2 (ltb_lt 0 ii) H).
  - intro H. now rewrite (proj2 (ltb_ge 0 ii) H).
  - intro H. now rewrite (proj2 (ltb_ge 0 price) H).
  - intro H. now rewrite (proj2 (ltb_lt 0 price) H).
Qed.

End MetricsProperties.

(** C1, as the specification words it, fails: on an all-cash purchase that
    earns no rent the monthly cash flow is negative and the break-even
    value returned is the numeric infinity [float('inf')] itself. *)
Lemma break_even_is_float_inf_without_rent :
  exists m,
    calculate_metrics 100000 0 500 100000 6 30 5 3 25 3000 0 2 3 = Ok m
    /\ monthly_cash_flow m <= 0
    /\ break_even_months m = PosInf
    /\ ne_inf (break_even_months m) = false.
Proof.
  eexists. split; [vm_compute; reflexivity|].
  cbn [monthly_cash_flow break_even_months ne_inf].
  split; [|split; reflexivity].
  vm_compute. discriminate.
Qed.

(** The amortisation check of the specification: 300000 at 20% down, 6%
    over 30 years, costs 1438.92 a month to the cent. *)
Example mortgage_payment_240000_at_6_percent :
  exists m,
    calculate_metrics 300000 2000 600 60000 6 30 5 3 25 9000 0 2 3 = Ok m
    /\ 143892 # 100 <= mortgage_payment m < 143893 # 100.
Proof.
  eexists. split; [vm_compute; reflexivity|].
  cbn [mortgage_payment]. split; vm_compute; [discriminate | reflexivity].
Qed.

(** ** The projection *)

Section Projection.

Variables price rental_income expenses down_payment loan_rate : Q.
Variable loan_term : Z.
Variables vacancy_rate appreciation_rate : Q.
Variables annual_income_growth annual_expense_growth : Q.

Lemma projection_row_ok (mp : Q) (t : Z) :
  (1 <= t)%Z ->
  projection_row price rental_income expenses vacancy_rate appreciation_rate
    annual_income_growth annual_expense_growth mp t
  = Ok (row_at price rental_income expenses vacancy_rate appreciation_rate
          annual_income_growth annual_expense_growth mp t).
Proof.
  intro Ht. unfold projection_row.
  rewrite !pow_nonneg by lia. reflexivity.
Qed.

(** Once the payment block has returned [mp], the loop builds one row per
    year of [range(1, years + 1)], in order. *)
Lemma calculate_cash_flow_projection_eq (years : Z) (mp : Q) :
  projection_mortgage_payment price down_payment loan_rate loan_term = Ok mp ->
  calculate_cash_flow_projection price rental_income expenses down_payment
    loan_rate loan_term vacancy_rate appreciation_rate years
    annual_income_growth annual_expense_growth
  = Ok (map (row_at price rental_income expenses vacancy_rate appreciation_rate
          annual_income_growth annual_expense_growth mp) (range 1 (years + 1))).
Proof.
  intro Hmp. unfold calculate_cash_flow_projection. rewrite Hmp. cbn [bind].
  apply mapM_pure. intros t Ht. apply range_In in Ht.
  apply projection_row_ok. lia.
Qed.

(** Every list the function returns was built that way from a payment its
    payment block returned. *)
Lemma calculate_cash_flow_projection_inv
    (years : Z) (rows : list ProjectionRow) :
  calculate_cash_flow_projection price rental_income expenses down_payment
    loan_rate loan_term vacancy_rate appreciation_rate years
    annual_income_growth annual_expense_growth
  = Ok rows ->
  exists mp,
    projection_mortgage_payment price down_payment loan_rate loan_term = Ok mp
    /\ rows
       = map (row_at price rental_income expenses vacancy_rate
                appreciation_rate annual_income_growth annual_expense_growth
                mp)
           (range 1 (years + 1)).
Proof.
  intro H.
  destruct (projection_mortgage_payment price down_payment loan_rate
              loan_term) as [mp|err] eqn:E.
  - rewrite (calculate_cash_flow_projection_eq years mp E) in H.
    injection H as <-. exists mp. split; reflexivity.
  - unfold calculate_cash_flow_projection in H. rewrite E in H. discriminate.
Qed.

(** Both call sites compute the same payment, as outcomes: equal values,
    and neither raises where the other returns. *)
Lemma mortgage_payment_call_sites_agree :
  metrics_mortgage_payment price down_payment loan_rate loan_term
  = projection_mortgage_payment price down_payment loan_rate loan_term.
Proof.
  destruct (loan_or_none price down_payment loan_rate loan_term)
    as [[HL [Hr Ht]]|H].
  - rewrite metrics_mortgage_payment_loan, projection_mortgage_payment_loan;
      auto.
  - rewrite metrics_mortgage_payment_none, projection_mortgage_payment_none;
      auto.
Qed.

(** C5: for every price, down payment, rate and term the payment block of
    [calculate_metrics] and that of [calculate_cash_flow_projection] have
    the same outcome, the same payment or the same exception, although the
    first clamps the rate and the number of payments and the second does
    not.  On whole calls, whatever the other arguments of either call:
    when both functions return, every projection row carries twelve times
    the [mortgage_payment] of the metrics. *)
Theorem projection_payment_equals_metrics_payment
    (rental_income' expenses' vacancy_rate' appreciation_rate' : Q)
    (tax_rate closing_costs renovation_costs g e : Q) (years : Z) :
  metrics_mortgage_payment price down_payment loan_rate loan_term
  = projection_mortgage_payment price down_payment loan_rate loan_term
  /\ forall m rows,
       calculate_metrics price rental_income' expenses' down_payment loan_rate
         loan_term vacancy_rate' appreciation_rate' tax_rate closing_costs
         renovation_costs g e = Ok m ->
       calculate_cash_flow_projection price rental_income expenses
         down_payment loan_rate loan_term vacancy_rate appreciation_rate
         years annual_income_growth annual_expense_growth = Ok rows ->
       List.length rows = Z.to_nat years
       /\ Forall (fun row => annual_mortgage row = mortgage_payment m * 12)
            rows.
Proof.
  split; [apply mortgage_payment_call_sites_agree|].
  intros m rows Hm Hrows.
  apply calculate_metrics_inv in Hm. destruct Hm as [mp [Hmp ->]].
  apply calculate_cash_flow_projection_inv in Hrows.
  destruct Hrows as [mp' [Hmp' ->]].
  rewrite mortgage_payment_call_sites_agree, Hmp' in Hmp.
  injection Hmp as ->.
  split.
  - rewrite length_map, range_length. f_equal. lia.
  - apply Forall_forall. intros row Hrow.
    apply in_map_iff in Hrow. destruct Hrow as [t [<- _]]. reflexivity.
Qed.

(** C3: for [years >= 1] and a year [t] in [1..years], every list the
    projection returns has [years] rows and the [t]-th one is the row of
    year [t]: income and expenses grown [t-1] times (so the first row has
    the base values), the price appreciated [t] times, the year's cash
    flow, and as cumulative cash flow that year's cash flow times [t]. *)
Theorem projection_row_formulas (years t : Z) (rows : list ProjectionRow) :
  calculate_cash_flow_projection price rental_income expenses down_payment
    loan_rate loan_term vacancy_rate appreciation_rate years
    annual_income_growth annual_expense_growth = Ok rows ->
  (1 <= years)%Z -> (1 <= t <= years)%Z ->
  exists mp row,
    projection_mortgage_payment price down_payment loan_rate loan_term = Ok mp
    /\ List.length rows = Z.to_nat years
    /\ nth_error rows (Z.to_nat (t - 1)) = Some row
    /\ year row = t
    /\ annual_income row
       = rental_income * (1 + annual_income_growth / 100) ^ (t - 1)
         * (1 - vacancy_rate / 100) * 12
    /\ annual_expenses row
       = expenses * (1 + annual_expense_growth / 100) ^ (t - 1) * 12
    /\ (t = 1%Z ->
        annual_income row == rental_income * (1 - vacancy_rate / 100) * 12
        /\ annual_expenses row == expenses * 12)
    /\ property_value row = price * (1 + appreciation_rate / 100) ^ t
    /\ annual_mortgage row = mp * 12
    /\ row_annual_cash_flow row
       = annual_income row - annual_expenses row - annual_mortgage row
    /\ cumulative_cash_flow row = row_annual_cash_flow row * inject_Z t.
Proof.
  intros Hrows Hy Ht.
  apply calculate_cash_flow_projection_inv in Hrows.
  destruct Hrows as [mp [Hmp ->]].
  exists mp.
  exists (row_at price rental_income expenses vacancy_rate appreciation_rate
            annual_income_growth annual_expense_growth mp t).
  split; [exact Hmp|].
  split; [rewrite length_map, range_length; f_equal; lia|].
  split.
  - rewrite nth_error_map, range_nth by lia.
    cbn [option_map]. do 2 f_equal. lia.
  - cbn [row_at year annual_income annual_expenses property_value
         annual_mortgage row_annual_cash_flow cumulative_cash_flow].
    repeat (split; [reflexivity|]).
    split; [|repeat (split; [reflexivity|]); reflexivity].
    intros ->. change (1 - 1)%Z with 0%Z. cbn [Qpower]. split; ring.
Qed.

End Projection.

(** ** The risk assessment *)

Section Risk.

Variables price vacancy_rate expenses rental_income : Q.
Variable market : market_condition.
Variable property_age : Q.

Lemma rent_times_12 : rental_income * 12 == 0 <-> rental_income == 0.
Proof.
  split; intro H; [|rewrite H; reflexivity].
  assert (E : rental_income == rental_income * 12 / 12) by field.
  rewrite E, H. reflexivity.
Qed.

(** With a non-zero rent the function returns. *)
Lemma analyze_risk_eq (location : string) :
  ~ rental_income == 0 ->
  analyze_risk price vacancy_rate expenses rental_income market property_age
    location
  = Ok (risk_record price vacancy_rate expenses rental_income market property_age).
Proof.
  intro Hr. unfold analyze_risk.
  rewrite !div_ok by (now rewrite rent_times_12). cbn [bind].
  rewrite div_ok by (cbn; discriminate). cbn [bind].
  unfold risk_record. cbv zeta.
  set (avg := inject_Z _ / inject_Z _).
  destruct (ltb avg (17 # 10)); [reflexivity|].
  destruct (ltb avg (23 # 10)); reflexivity.
Qed.

(** With a zero rent the first division raises. *)
Lemma analyze_risk_zero_rent (location : string) :
  rental_income == 0 ->
  analyze_risk price vacancy_rate expenses rental_income market property_age
    location
  = Raise ZeroDivisionError.
Proof.
  intro Hr. unfold analyze_risk.
  rewrite div_zero by (now rewrite rent_times_12). reflexivity.
Qed.

Lemma analyze_risk_inv (location : string) (r : RiskAssessment) :
  analyze_risk price vacancy_rate expenses rental_income market property_age
    location = Ok r ->
  ~ rental_income == 0
  /\ r = risk_record price vacancy_rate expenses rental_income market
        property_age.
Proof.
  intro H. destruct (Qeq_dec rental_income 0) as [E|E].
  - rewrite (analyze_risk_zero_rent location E) in H. discriminate.
  - rewrite (analyze_risk_eq location E) in H. injection H as <-.
    split; [exact E | reflexivity].
Qed.

End Risk.

Lemma tier_cases (x lo hi : Q) :
  (x < lo /\ (tier x lo hi 1 2 3 = 1)%Z)
  \/ (lo <= x /\ x < hi /\ (tier x lo hi 1 2 3 = 2)%Z)
  \/ (lo <= x /\ hi <= x /\ (tier x lo hi 1 2 3 = 3)%Z).
Proof.
  unfold tier. destruct (ltb x lo) eqn:E1.
  - left. apply ltb_lt in E1. now split.
  - apply ltb_ge in E1. destruct (ltb x hi) eqn:E2.
    + right; left. apply ltb_lt in E2. now repeat split.
    + right; right. apply ltb_ge in E2. now repeat split.
Qed.

(** A numeric factor is scored by strict comparisons: a value equal to a
    threshold belongs to the tier above it. *)
Lemma tier_score (x lo hi : Q) :
  lo <= hi ->
  ((tier x lo hi 1 2 3 = 1)%Z <-> x < lo)
  /\ ((tier x lo hi 1 2 3 = 2)%Z <-> lo <= x /\ x < hi)
  /\ ((tier x lo hi 1 2 3 = 3)%Z <-> hi <= x).
Proof.
  intro Hlh.
  destruct (tier_cases x lo hi) as [[H ->]|[[H1 [H2 ->]]|[H1 [H2 ->]]]];
    repeat split; intros; try discriminate; try lra.
Qed.

Lemma tier_in_range (x lo hi : Q) : (1 <= tier x lo hi 1 2 3 <= 3)%Z.
Proof.
  destruct (tier_cases x lo hi) as [[_ ->]|[[_ [_ ->]]|[_ [_ ->]]]]; lia.
Qed.

Lemma market_tier_in_range (m : market_condition) :
  (1 <= market_tier m 1 2 3 <= 3)%Z.
Proof.
  destruct m; cbn; lia.
Qed.

Section RiskProperties.

Variables price vacancy_rate expenses rental_income : Q.
Variable market : market_condition.
Variable property_age : Q.
Variable location : string.

(** C7: whenever the rent is not zero the function returns, and every
    assessment it returns has exactly five factor scores, each 1, 2 or 3;
    [risk_score] is their arithmetic mean, so it lies in [1, 3];
    [overall_risk] is "Low" below 1.7, "Medium" from 1.7 to below 2.3 and
    "High" from 2.3 on. *)
Theorem risk_score_is_mean_of_five_scores :
  (~ rental_income == 0 ->
   exists r,
     analyze_risk price vacancy_rate expenses rental_income market
       property_age location = Ok r)
  /\ forall r,
       analyze_risk price vacancy_rate expenses rental_income market
         property_age location = Ok r ->
     exists s1 s2 s3 s4 s5 : Z,
       map (fun kv => score (snd kv)) (factors r) = [s1; s2; s3; s4; s5]
       /\ Forall (fun s => s = 1 \/ s = 2 \/ s = 3)%Z [s1; s2; s3; s4; s5]
       /\ risk_score r = inject_Z (s1 + s2 + s3 + s4 + s5) / 5
       /\ 1 <= risk_score r <= 3
       /\ (risk_score r < 17 # 10 -> overall_risk r = "Low")
       /\ (17 # 10 <= risk_score r -> risk_score r < 23 # 10 ->
           overall_risk r = "Medium")
       /\ (23 # 10 <= risk_score r -> overall_risk r = "High").
Proof.
  split.
  - intro Hr. eexists. now apply analyze_risk_eq.
  - intros r H. apply analyze_risk_inv in H. destruct H as [_ ->].
    unfold risk_record. cbn [factors risk_score overall_risk].
    cbn [risk_factors map snd score List.length Z.of_nat Pos.of_succ_nat
         Pos.succ sum fold_left Z.add].
    set (av := vacancy_rate + vacancy_impact (MARKET_CONDITIONS market)).
    set (pr := price / (rental_income * 12)).
    set (er := expenses * 12 / (rental_income * 12) * 100).
    pose proof (tier_in_range av 5 8) as B1.
    pose proof (tier_in_range pr 15 20) as B2.
    pose proof (tier_in_range er 35 45) as B3.
    pose proof (market_tier_in_range market) as B4.
    pose proof (tier_in_range property_age 10 30) as B5.
    set (s1 := tier av 5 8 1%Z 2%Z 3%Z) in *.
    set (s2 := tier pr 15 20 1%Z 2%Z 3%Z) in *.
    set (s3 := tier er 35 45 1%Z 2%Z 3%Z) in *.
    set (s4 := market_tier market 1%Z 2%Z 3%Z) in *.
    set (s5 := tier property_age 10 30 1%Z 2%Z 3%Z) in *.
    exists s1, s2, s3, s4, s5.
    split; [reflexivity|].
    split; [repeat (apply Forall_cons; [lia|]); apply Forall_nil|].
    split; [reflexivity|].
    change (inject_Z 5) with 5.
    assert (Hlo : 5 <= inject_Z (s1 + s2 + s3 + s4 + s5))
      by (change 5 with (inject_Z 5); rewrite <- Zle_Qle; lia).
    assert (Hhi : inject_Z (s1 + s2 + s3 + s4 + s5) <= 15)
      by (change 15 with (inject_Z 15); rewrite <- Zle_Qle; lia).
    set (q := inject_Z (s1 + s2 + s3 + s4 + s5)) in *.
    assert (Hq : q / 5 == q * (1 # 5)) by field.
    split; [split; lra|].
    destruct (ltb (q / 5) (17 # 10)) eqn:E1.
    + apply ltb_lt in E1. repeat split; intros; try reflexivity; lra.
    + apply ltb_ge in E1. destruct (ltb (q / 5) (23 # 10)) eqn:E2.
      * apply ltb_lt in E2. repeat split; intros; try reflexivity; lra.
      * apply ltb_ge in E2. repeat split; intros; try reflexivity; lra.
Qed.

(** C8: whenever the rent is not zero the function returns, and in every
    assessment it returns the four numeric factors are scored with strict
    comparisons, a value on a threshold falling in the higher tier:
    Vacancy Risk on the adjusted vacancy at 5 and 8, Price to Rent Ratio on
    [price / (rental_income*12)] at 15 and 20, Expense Ratio on
    [(expenses*12)/(rental_income*12)*100] at 35 and 45, Property Age at 10
    and 30. *)
Theorem factor_scores_use_strict_thresholds :
  (~ rental_income == 0 ->
   exists r,
     analyze_risk price vacancy_rate expenses rental_income market
       property_age location = Ok r)
  /\ forall r,
       analyze_risk price vacancy_rate expenses rental_income market
         property_age location = Ok r ->
     exists fv fp fe fa,
       lookup "Vacancy Risk" (factors r) = Some fv
       /\ lookup "Price to Rent Ratio" (factors r) = Some fp
       /\ lookup "Expense Ratio" (factors r) = Some fe
       /\ lookup "Property Age" (factors r) = Some fa
       /\ (let adjusted_vacancy :=
             vacancy_rate + vacancy_impact (MARKET_CONDITIONS market) in
           ((score fv = 1)%Z <-> adjusted_vacancy < 5)
           /\ ((score fv = 2)%Z <-> 5 <= adjusted_vacancy /\ adjusted_vacancy < 8)
           /\ ((score fv = 3)%Z <-> 8 <= adjusted_vacancy))
       /\ (let price_to_rent := price / (rental_income * 12) in
           ((score fp = 1)%Z <-> price_to_rent < 15)
           /\ ((score fp = 2)%Z <-> 15 <= price_to_rent /\ price_to_rent < 20)
           /\ ((score fp = 3)%Z <-> 20 <= price_to_rent))
       /\ (let expense_ratio :=
             expenses * 12 / (rental_income * 12) * 100 in
           ((score fe = 1)%Z <-> expense_ratio < 35)
           /\ ((score fe = 2)%Z <-> 35 <= expense_ratio /\ expense_ratio < 45)
           /\ ((score fe = 3)%Z <-> 45 <= expense_ratio))
       /\ ((score fa = 1)%Z <-> property_age < 10)
       /\ ((score fa = 2)%Z <-> 10 <= property_age /\ property_age < 30)
       /\ ((score fa = 3)%Z <-> 30 <= property_age).
Proof.
  split.
  - intro Hr. eexists. now apply analyze_risk_eq.
  - intros r H. apply analyze_risk_inv in H. destruct H as [_ ->].
    unfold risk_record. cbn [factors]. unfold risk_factors.
    do 4 eexists.
    do 4 (split; [reflexivity|]).
    cbn [score]. cbv zeta.
    split; [apply tier_score; lra|].
    split; [apply tier_score; lra|].
    split; [apply tier_score; lra|].
    apply tier_score; lra.
Qed.

(** C10: the location argument is never read: two calls that differ only
    in it have the same outcome, the whole assessment (scores,
    descriptions, [risk_score], [overall_risk]) or the same exception. *)
Theorem location_has_no_influence (location' : string) :
  analyze_risk price vacancy_rate expenses rental_income market property_age
    location
  = analyze_risk price vacancy_rate expenses rental_income market property_age
      location'.
Proof.
  reflexivity.
Qed.

End RiskProperties.

(** C2: with a monthly rent of zero, which the interface accepts,
    [analyze_risk] does not return an assessment: the unguarded division
    by [rental_income * 12] raises [ZeroDivisionError]. *)
Theorem analyze_risk_raises_without_rent :
  analyze_risk 300000 5 600 0 Stable 15 "Suburban" = Raise ZeroDivisionError.
Proof.
  apply analyze_risk_zero_rent. reflexivity.
Qed.

(** On the same property [calculate_metrics], whose divisions are guarded,
    returns. *)
Example calculate_metrics_returns_without_rent :
  exists m,
    calculate_metrics 300000 0 600 300000 (55 # 10) 30 5 3 25 9000 0 2 3 = Ok m
    /\ roi m < 0 /\ break_even_months m = PosInf.
Proof.
  eexists. split; [vm_compute; reflexivity|].
  split; [vm_compute|]; reflexivity.
Qed.

(** ** Concrete runs *)

(** An all-cash purchase that earns more than it costs breaks even after
    [initial_investment / monthly_cash_flow] months. *)
Lemma break_even_of_an_all_cash_purchase :
  exists m,
    calculate_metrics 100000 1000 300 100000 0 30 5 3 25 3000 0 2 3 = Ok m
    /\ break_even_months m
       = Finite (initial_investment m / monthly_cash_flow m).
Proof.
  destruct (calculate_metrics 100000 1000 300 100000 0 30 5 3 25 3000 0 2 3)
    as [m|err] eqn:E; [|vm_compute in E; discriminate].
  exists m. split; [reflexivity|].
  destruct (break_even_quotient_or_float_inf _ _ _ _ _ _ _ _ _ _ _ _ _ m E)
    as (_ & Hpos & _).
  apply Hpos. vm_compute in E. injection E as <-. reflexivity.
Defined.


Lemma tax_savings_of_an_all_cash_purchase :
  exists m,
    calculate_metrics 100000 1000 300 100000 0 30 5 3 25 3000 0 2 3 = Ok m
    /\ 0 <= tax_savings m
    /\ after_tax_cash_flow m = annual_cash_flow m + tax_savings m.
Proof.
  destruct (calculate_metrics 100000 1000 300 100000 0 30 5 3 25 3000 0 2 3)
    as [m|err] eqn:E; [|vm_compute in E; discriminate].
  exists m. split; [reflexivity|].
  destruct (tax_savings_is_clamped _ _ _ _ _ _ _ _ _ _ _ _ _ m E)
    as (_ & Hpos & Hsum).
  split; assumption.
Defined.

(** A purchase with nothing paid in: the guard gives a return of 0 and
    no division is attempted. *)
Lemma roi_is_zero_without_investment :
  exists m,
    calculate_metrics 100000 1000 300 0 6 1 5 3 25 0 0 2 3 = Ok m
    /\ initial_investment m == 0
    /\ roi m = 0 /\ cash_on_cash m = 0.
Proof.
  destruct (calculate_metrics 100000 1000 300 0 6 1 5 3 25 0 0 2 3)
    as [m|err] eqn:E; [|vm_compute in E; discriminate].
  exists m. split; [reflexivity|].
  destruct (roi_equals_cash_on_cash _ _ _ _ _ _ _ _ _ _ _ _ _ m E)
    as (Hii & Heq & _ & Hzero & _).
  assert (H0 : initial_investment m == 0) by (rewrite Hii; reflexivity).
  split; [exact H0|].
  assert (Hr : roi m = 0) by (apply Hzero; rewrite H0; apply Qle_refl).
  split; [exact Hr | rewrite <- Heq; exact Hr].
Defined.

(** Year 2 of a three-year projection of an all-cash purchase. *)
Lemma projection_row_formulas_year_2 :
  exists rows row,
    calculate_cash_flow_projection 200000 1500 400 200000 0 30 5 3 3 2 3
    = Ok rows
    /\ List.length rows = 3%nat
    /\ nth_error rows 1 = Some row
    /\ year row = 2%Z
    /\ cumulative_cash_flow row = row_annual_cash_flow row * 2.
Proof.
  destruct (calculate_cash_flow_projection 200000 1500 400 200000 0 30 5 3 3
              2 3) as [rows|err] eqn:E; [|vm_compute in E; discriminate].
  destruct (projection_row_formulas 200000 1500 400 200000 0 30 5 3 2 3 3 2
              rows E)
    as (mp & row & _ & Hlen & Hnth & Hyear & _ & _ & _ & _ & _ & _ & Hcum);
    [lia | lia |].
  exists rows, row. repeat split; assumption.
Defined.

(** The same loan seen by both functions. *)
Lemma one_year_loan_in_metrics_and_projection :
  exists m rows,
    calculate_metrics 100000 1000 300 20000 6 1 5 3 25 3000 0 2 3 = Ok m
    /\ calculate_cash_flow_projection 100000 1000 300 20000 6 1 5 3 2 2 3
       = Ok rows
    /\ Forall (fun row => annual_mortgage row = mortgage_payment m * 12) rows.
Proof.
  destruct (calculate_metrics 100000 1000 300 20000 6 1 5 3 25 3000 0 2 3)
    as [m|err] eqn:Em; [|vm_compute in Em; discriminate].
  destruct (calculate_cash_flow_projection 100000 1000 300 20000 6 1 5 3 2 2
              3) as [rows|err] eqn:Er; [|vm_compute in Er; discriminate].
  exists m, rows. do 2 (split; [reflexivity|]).
  exact (proj2 (proj2 (projection_payment_equals_metrics_payment
                         100000 1000 300 20000 6 1 5 3 2 3
                         1000 300 5 3 25 3000 0 2 3 2) m rows Em Er)).
Defined.

(** The cumulative column is the year's cash flow times the year number,
    which differs from the sum of the cash flows so far as soon as rent and
    expenses grow at different paces. *)
Example cumulative_is_not_a_running_sum :
  exists r1 r2,
    calculate_cash_flow_projection 200000 1500 400 200000 0 30 5 3 2 2 3
    = Ok [r1; r2]
    /\ cumulative_cash_flow r2 == row_annual_cash_flow r2 * 2
    /\ ~ cumulative_cash_flow r2
         == row_annual_cash_flow r1 + row_annual_cash_flow r2.
Proof.
  do 2 eexists. split; [vm_compute; reflexivity|].
  cbn [cumulative_cash_flow row_annual_cash_flow].
  split; [vm_compute; reflexivity|].
  intro H. vm_compute in H. discriminate.
Qed.

(** A fifteen-year-old house at 300000 renting for 2000 a month in a
    stable market is assessed, and its risk is low. *)
Lemma risk_score_of_sample_house :
  exists r, analyze_risk 300000 5 600 2000 Stable 15 "Suburban" = Ok r.
Proof.
  apply (proj1 (risk_score_is_mean_of_five_scores 300000 5 600 2000 Stable 15
                  "Suburban")).
  intro H. vm_compute in H. discriminate.
Defined.

Lemma factor_scores_of_sample_house :
  exists r, analyze_risk 300000 5 600 2000 Stable 15 "Suburban" = Ok r.
Proof.
  apply (proj1 (factor_scores_use_strict_thresholds 300000 5 600 2000 Stable
                  15 "Suburban")).
  intro H. vm_compute in H. discriminate.
Defined.

(** The three classifications of the specification's examples: scores
    1,1,1,1,1 give mean 1 and "Low"; 3,3,3,3,3 give mean 3 and "High";
    1,2,2,2,3 give mean 2 and "Medium". *)
Example all_scores_1_is_low :
  exists r,
    analyze_risk 200000 4 500 2000 Stable 5 "Urban" = Ok r
    /\ map (fun kv => score (snd kv)) (factors r) = [1; 1; 1; 1; 1]%Z
    /\ risk_score r == 1 /\ overall_risk r = "Low".
Proof.
  eexists. split; [vm_compute; reflexivity|].
  repeat split; vm_compute; reflexivity.
Qed.

Example all_scores_3_is_high :
  exists r,
    analyze_risk 600000 6 1200 2000 Declining 40 "Urban" = Ok r
    /\ map (fun kv => score (snd kv)) (factors r) = [3; 3; 3; 3; 3]%Z
    /\ risk_score r == 3 /\ overall_risk r = "High".
Proof.
  eexists. split; [vm_compute; reflexivity|].
  repeat split; vm_compute; reflexivity.
Qed.

Example scores_1_2_2_2_3_is_medium :
  exists r,
    analyze_risk 400000 2 800 2000 Volatile 30 "Urban" = Ok r
    /\ map (fun kv => score (snd kv)) (factors r) = [1; 2; 2; 2; 3]%Z
    /\ risk_score r == 2 /\ overall_risk r = "Medium".
Proof.
  eexists. split; [vm_compute; reflexivity|].
  repeat split; vm_compute; reflexivity.
Qed.

(** An adjusted vacancy of exactly 5 scores 2, and of exactly 8 scores 3;
    under a volatile market a vacancy of 3 is adjusted to 5. *)
Example vacancy_on_the_thresholds :
  (exists r f,
     analyze_risk 300000 5 600 2000 Stable 15 "Urban" = Ok r
     /\ lookup "Vacancy Risk" (factors r) = Some f /\ score f = 2%Z)
  /\ (exists r f,
        analyze_risk 300000 8 600 2000 Stable 15 "Urban" = Ok r
        /\ lookup "Vacancy Risk" (factors r) = Some f /\ score f = 3%Z)
  /\ (exists r f,
        analyze_risk 300000 3 600 2000 Volatile 15 "Urban" = Ok r
        /\ lookup "Vacancy Risk" (factors r) = Some f /\ score f = 2%Z).
Proof.
  repeat split; do 2 eexists;
    (split; [vm_compute; reflexivity|]); split; vm_compute; reflexivity.
Qed.

(** * Further properties of the engine *)

(** ** More on [calculate_metrics] *)

Section MetricsFurther.

Variables price rental_income expenses down_payment loan_rate : Q.
Variable loan_term : Z.
Variables vacancy_rate appreciation_rate tax_rate : Q.
Variables closing_costs renovation_costs : Q.
Variables annual_income_growth annual_expense_growth : Q.

(** X2: the two growth arguments are accepted by [calculate_metrics] but
    never read: changing them changes nothing in the outcome. *)
Theorem growth_rates_do_not_reach_the_metrics (g' e' : Q) :
  calculate_metrics price rental_income expenses down_payment loan_rate
    loan_term vacancy_rate appreciation_rate tax_rate closing_costs
    renovation_costs annual_income_growth annual_expense_growth
  = calculate_metrics price rental_income expenses down_payment loan_rate
      loan_term vacancy_rate appreciation_rate tax_rate closing_costs
      renovation_costs g' e'.
Proof.
  reflexivity.
Qed.

(** X3: in every dictionary the function returns the mortgage payment is
    not negative, so the monthly cash flow does not exceed the effective
    rent less the expenses. *)
Theorem mortgage_payment_never_negative (m : Metrics) :
  calculate_metrics price rental_income expenses down_payment loan_rate
    loan_term vacancy_rate appreciation_rate tax_rate closing_costs
    renovation_costs annual_income_growth annual_expense_growth
  = Ok m ->
  0 <= mortgage_payment m
  /\ monthly_cash_flow m
     <= rental_income * (1 - vacancy_rate / 100) - expenses.
Proof.
  intro Hm. open_metrics Hm mp Hmp.
  assert (H0 : 0 <= mp).
  { destruct (metrics_payment_cases _ _ _ _ mp Hmp)
      as [[HL [Hr [Ht ->]]]|[_ ->]].
    - apply Qlt_le_weak. apply payment_formula_pos;
        [exact HL | now apply rate_pos | lia].
    - apply Qle_refl. }
  split; [exact H0 | lra].
Qed.

(** X4: with a loan, a positive rate and a positive term, every payment
    the function returns is at least one month of interest on the amount
    borrowed. *)
Theorem mortgage_payment_exceeds_interest (m : Metrics) :
  0 < price - down_payment -> 0 < loan_rate -> (0 < loan_term)%Z ->
  calculate_metrics price rental_income expenses down_payment loan_rate
    loan_term vacancy_rate appreciation_rate tax_rate closing_costs
    renovation_costs annual_income_growth annual_expense_growth
  = Ok m ->
  (price - down_payment) * (loan_rate / 12 / 100) <= mortgage_payment m.
Proof.
  intros HL Hr Ht Hm. open_metrics Hm mp Hmp.
  rewrite (metrics_mortgage_payment_loan _ _ _ _ HL Hr Ht) in Hmp.
  injection Hmp as <-. unfold payment_formula.
  pose proof (proj2 (rate_pos loan_rate) Hr) as Hr'.
  pose proof (growth_gt_1 (loan_rate / 12 / 100) (loan_term * 12) Hr'
                ltac:(lia)) as Hx.
  set (x := (1 + loan_rate / 12 / 100) ^ (loan_term * 12)) in *.
  pose proof (Qmult_lt_0_compat _ _ HL Hr') as Hc.
  set (c := (price - down_payment) * (loan_rate / 12 / 100)) in *.
  apply Qle_shift_div_l; [lra|].
  assert (E : c * (x - 1) == c * x - c) by ring. lra.
Qed.

(** X5: when the monthly cash flow returned is positive the break-even
    value is a finite number of months which, multiplied by the monthly
    cash flow, gives back the initial investment; it is not negative when
    the initial investment is not. *)
Theorem break_even_recovers_the_investment (m : Metrics) :
  calculate_metrics price rental_income expenses down_payment loan_rate
    loan_term vacancy_rate appreciation_rate tax_rate closing_costs
    renovation_costs annual_income_growth annual_expense_growth
  = Ok m ->
  0 < monthly_cash_flow m ->
  exists b,
    break_even_months m = Finite b
    /\ b * monthly_cash_flow m == initial_investment m
    /\ (0 <= initial_investment m -> 0 <= b).
Proof.
  intro Hm. open_metrics Hm mp Hmp.
  set (mcf := rental_income * (1 - vacancy_rate / 100) - expenses - mp).
  set (ii := down_payment + closing_costs + renovation_costs).
  intro H. rewrite (proj2 (ltb_lt 0 mcf) H).
  exists (ii / mcf). split; [reflexivity|]. split.
  - field. lra.
  - intro Hi. apply Qle_shift_div_l; [exact H | lra].
Qed.

(** X6: in every dictionary the function returns the break-even value is
    finite exactly when the monthly cash flow is positive, and for a
    positive initial investment that is exactly when the return on
    investment is positive. *)
Theorem break_even_finite_iff_roi_positive (m : Metrics) :
  calculate_metrics price rental_income expenses down_payment loan_rate
    loan_term vacancy_rate appreciation_rate tax_rate closing_costs
    renovation_costs annual_income_growth annual_expense_growth
  = Ok m ->
  (ne_inf (break_even_months m) = true <-> 0 < monthly_cash_flow m)
  /\ (0 < initial_investment m ->
      (0 < roi m <-> ne_inf (break_even_months m) = true)).
Proof.
  intro Hm. open_metrics Hm mp Hmp.
  set (mcf := rental_income * (1 - vacancy_rate / 100) - expenses - mp).
  set (ii := down_payment + closing_costs + renovation_costs).
  assert (Hfin : ne_inf (if ltb 0 mcf then Finite (ii / mcf) else PosInf)
                 = true <-> 0 < mcf).
  { destruct (ltb 0 mcf) eqn:E; cbn [ne_inf].
    - apply ltb_lt in E. tauto.
    - apply ltb_ge in E. split; [discriminate | intro; lra]. }
  split; [exact Hfin|].
  intro Hi. rewrite Hfin. rewrite (proj2 (ltb_lt 0 ii) Hi).
  pose proof (Qinv_lt_0_compat ii Hi) as Hk.
  assert (E : mcf * 12 / ii * 100 == mcf * (1200 * / ii)) by (field; lra).
  rewrite E.
  assert (Hc : 0 < 1200 * / ii) by (apply Qmult_lt_0_compat; [lra | exact Hk]).
  split; intro H.
  - apply (proj1 (Qmult_lt_r 0 mcf (1200 * / ii) Hc)). lra.
  - pose proof (Qmult_lt_0_compat _ _ H Hc). lra.
Qed.

End MetricsFurther.

Lemma Qpower_le_1 (q : Q) (n : nat) : 0 <= q -> q <= 1 -> q ^ Z.of_nat n <= 1.
Proof.
  intros H0 H1. induction n as [|n IH].
  - cbn. lra.
  - rewrite Nat2Z.inj_succ, <- Z.add_1_r, Qpower_plus' by lia.
    pose proof (Qpower_0_le q (Z.of_nat n) H0) as Hp.
    change (q ^ 1) with q.
    set (x := q ^ Z.of_nat n) in *. nra.
Qed.

Lemma Qpower_antitone (q : Q) (n k : nat) :
  0 <= q -> q <= 1 -> q ^ Z.of_nat (n + k) <= q ^ Z.of_nat n.
Proof.
  intros H0 H1. destruct k as [|k].
  - rewrite Nat.add_0_r. apply Qle_refl.
  - destruct n as [|n].
    + cbn [Nat.add]. change (q ^ Z.of_nat 0) with 1. now apply Qpower_le_1.
    + rewrite Nat2Z.inj_add, Qpower_plus' by lia.
      pose proof (Qpower_le_1 q (S k) H0 H1) as Hk.
      pose proof (Qpower_0_le q (Z.of_nat (S n)) H0) as Hn.
      set (x := q ^ Z.of_nat (S n)) in *.
      set (y := q ^ Z.of_nat (S k)) in *. nra.
Qed.

(** X7: the capitalisation rate does not depend on the financing: two
    calls that agree on price, rent, expenses and vacancy and both return
    give the same [cap_rate], whatever the down payment, the loan, the tax
    rate and the costs of either. *)
Theorem cap_rate_ignores_financing
    (price rental_income expenses vacancy_rate : Q)
    (down_payment loan_rate : Q) (loan_term : Z)
    (appreciation_rate tax_rate closing_costs renovation_costs g e : Q)
    (down_payment' loan_rate' : Q) (loan_term' : Z)
    (appreciation_rate' tax_rate' closing_costs' renovation_costs' g' e' : Q)
    (m m' : Metrics) :
  calculate_metrics price rental_income expenses down_payment loan_rate
    loan_term vacancy_rate appreciation_rate tax_rate closing_costs
    renovation_costs g e = Ok m ->
  calculate_metrics price rental_income expenses down_payment' loan_rate'
    loan_term' vacancy_rate appreciation_rate' tax_rate' closing_costs'
    renovation_costs' g' e' = Ok m' ->
  cap_rate m = cap_rate m'.
Proof.
  intros Hm Hm'.
  apply calculate_metrics_inv in Hm. destruct Hm as [mp [_ ->]].
  apply calculate_metrics_inv in Hm'. destruct Hm' as [mp' [_ ->]].
  reflexivity.
Qed.

Section MetricsValues.

Variables price rental_income expenses down_payment loan_rate : Q.
Variable loan_term : Z.
Variables vacancy_rate appreciation_rate tax_rate : Q.
Variables closing_costs renovation_costs : Q.
Variables annual_income_growth annual_expense_growth : Q.

(** X8: for a price that is not negative, the three future values
    returned are ordered by the sign of the appreciation rate: rising from
    the price on when it is zero or positive, falling from the price on
    when it lies between -100 and 0. *)
Theorem future_values_are_ordered (m : Metrics) :
  0 <= price ->
  calculate_metrics price rental_income expenses down_payment loan_rate
    loan_term vacancy_rate appreciation_rate tax_rate closing_costs
    renovation_costs annual_income_growth annual_expense_growth
  = Ok m ->
  (0 <= appreciation_rate ->
   price <= future_value_5yr m
   /\ future_value_5yr m <= future_value_10yr m
   /\ future_value_10yr m <= future_value_20yr m)
  /\ (-100 <= appreciation_rate -> appreciation_rate <= 0 ->
      future_value_20yr m <= future_value_10yr m
      /\ future_value_10yr m <= future_value_5yr m
      /\ future_value_5yr m <= price).
Proof.
  intros Hp Hm. open_metrics Hm mp Hmp.
  assert (Ediv : appreciation_rate / 100 == appreciation_rate * (1 # 100))
    by field.
  set (q := 1 + appreciation_rate / 100).
  split.
  - intro Ha. assert (Hq : 1 <= q) by (unfold q; lra).
    pose proof (Qpower_le_compat_l q 0 5 ltac:(lia) Hq) as H05.
    pose proof (Qpower_le_compat_l q 5 10 ltac:(lia) Hq) as H510.
    pose proof (Qpower_le_compat_l q 10 20 ltac:(lia) Hq) as H1020.
    change (q ^ 0) with 1 in H05.
    set (x5 := q ^ 5) in *. set (x10 := q ^ 10) in *. set (x20 := q ^ 20) in *.
    repeat split; nra.
  - intros Hlo Hhi.
    assert (Hq0 : 0 <= q) by (unfold q; lra).
    assert (Hq1 : q <= 1) by (unfold q; lra).
    pose proof (Qpower_antitone q 0 5 Hq0 Hq1) as H05.
    pose proof (Qpower_antitone q 5 5 Hq0 Hq1) as H510.
    pose proof (Qpower_antitone q 10 10 Hq0 Hq1) as H1020.
    change (q ^ Z.of_nat 0) with 1 in H05.
    change (Z.of_nat (0 + 5)) with 5%Z in H05.
    change (Z.of_nat (5 + 5)) with 10%Z in H510.
    change (Z.of_nat 5) with 5%Z in H510.
    change (Z.of_nat (10 + 10)) with 20%Z in H1020.
    change (Z.of_nat 10) with 10%Z in H1020.
    set (x5 := q ^ 5) in *. set (x10 := q ^ 10) in *. set (x20 := q ^ 20) in *.
    repeat split; nra.
Qed.

(** X9: in every dictionary the function returns, the equity at 5 and at
    10 years is the future value less the whole amount borrowed when the
    loan term reaches that horizon, and the future value itself when it
    does not: the balance is never paid down.  So a loan of 5 to 9 years
    is subtracted at 5 years and not at 10. *)
Theorem equity_subtracts_the_whole_loan_or_nothing (m : Metrics) :
  calculate_metrics price rental_income expenses down_payment loan_rate
    loan_term vacancy_rate appreciation_rate tax_rate closing_costs
    renovation_costs annual_income_growth annual_expense_growth
  = Ok m ->
  ((5 <= loan_term)%Z ->
   total_equity_5yr m = future_value_5yr m - (price - down_payment))
  /\ ((loan_term < 5)%Z -> total_equity_5yr m = future_value_5yr m)
  /\ ((10 <= loan_term)%Z ->
      total_equity_10yr m = future_value_10yr m - (price - down_payment))
  /\ ((loan_term < 10)%Z -> total_equity_10yr m = future_value_10yr m)
  /\ ((5 <= loan_term < 10)%Z ->
      total_equity_10yr m - total_equity_5yr m
      == future_value_10yr m - future_value_5yr m + (price - down_payment)).
Proof.
  intro Hm. open_metrics Hm mp Hmp.
  repeat split; intro H.
  - now rewrite (proj2 (Z.leb_le 5 loan_term) H).
  - now rewrite (proj2 (Z.leb_gt 5 loan_term) H).
  - now rewrite (proj2 (Z.leb_le 10 loan_term) H).
  - now rewrite (proj2 (Z.leb_gt 10 loan_term) H).
  - rewrite (proj2 (Z.leb_le 5 loan_term) ltac:(lia)).
    rewrite (proj2 (Z.leb_gt 10 loan_term) ltac:(lia)). ring.
Qed.

(** X10: the percentage shown under each future value divides by the
    price without a guard: given the dictionary [calculate_metrics]
    returned, it raises for a price of zero, which the form accepts; for
    any other price it is [((1 + appreciation_rate/100)^y - 1) * 100], the
    same for every price. *)
Theorem value_change_raises_on_zero_price (m : Metrics) :
  calculate_metrics price rental_income expenses down_payment loan_rate
    loan_term vacancy_rate appreciation_rate tax_rate closing_costs
    renovation_costs annual_income_growth annual_expense_growth
  = Ok m ->
  (price == 0 ->
   value_change_percent (future_value_5yr m) price
   = Raise ZeroDivisionError
   /\ value_change_percent (future_value_10yr m) price
      = Raise ZeroDivisionError
   /\ value_change_percent (future_value_20yr m) price
      = Raise ZeroDivisionError)
  /\ (~ price == 0 ->
      exists c5 c10 c20,
        value_change_percent (future_value_5yr m) price = Ok c5
        /\ value_change_percent (future_value_10yr m) price = Ok c10
        /\ value_change_percent (future_value_20yr m) price = Ok c20
        /\ c5 == ((1 + appreciation_rate / 100) ^ 5 - 1) * 100
        /\ c10 == ((1 + appreciation_rate / 100) ^ 10 - 1) * 100
        /\ c20 == ((1 + appreciation_rate / 100) ^ 20 - 1) * 100).
Proof.
  intro Hm. open_metrics Hm mp Hmp. unfold value_change_percent. split.
  - intro H. now rewrite !(div_zero _ price H).
  - intro H. rewrite !(div_ok _ price H). cbn [bind].
    do 3 eexists. do 3 (split; [reflexivity|]).
    set (x5 := (1 + appreciation_rate / 100) ^ 5).
    set (x10 := (1 + appreciation_rate / 100) ^ 10).
    set (x20 := (1 + appreciation_rate / 100) ^ 20).
    repeat split; field; exact H.
Qed.

End MetricsValues.

(** ** More on [calculate_cash_flow_projection] *)

Lemma range_snoc (lo hi : Z) :
  (lo <= hi)%Z -> range lo (hi + 1) = (range lo hi ++ [hi])%list.
Proof.
  intro H. unfold range.
  replace (Z.to_nat (hi + 1 - lo)) with (S (Z.to_nat (hi - lo))) by lia.
  rewrite seq_S, map_app. cbn [map Nat.add]. do 2 f_equal. lia.
Qed.

Lemma range_empty (lo hi : Z) : (hi <= lo)%Z -> range lo hi = [].
Proof.
  intro H. unfold range.
  replace (Z.to_nat (hi - lo)) with 0%nat by lia. reflexivity.
Qed.

Lemma In_firstn {A : Type} (n : nat) (x : A) (xs : list A) :
  In x (firstn n xs) -> In x xs.
Proof.
  intro H. rewrite <- (firstn_skipn n xs). apply in_or_app. now left.
Qed.

Lemma Qsum_constant {A : Type} (f : A -> Q) (c : Q) (xs : list A) :
  (forall x, In x xs -> f x == c) ->
  Qsum (map f xs) == c * inject_Z (Z.of_nat (List.length xs)).
Proof.
  induction xs as [|x xs IH]; intro H.
  - cbn. ring.
  - cbn [map Qsum fold_right List.length].
    fold (Qsum (map f xs)).
    rewrite IH by (intros y Hy; apply H; right; exact Hy).
    rewrite (H x (or_introl eq_refl)).
    rewrite Nat2Z.inj_succ, <- Z.add_1_r, inject_Z_plus. ring.
Qed.

Section ProjectionFurther.

Variables price rental_income expenses down_payment loan_rate : Q.
Variable loan_term : Z.
Variables vacancy_rate appreciation_rate : Q.
Variables annual_income_growth annual_expense_growth : Q.

(** X11: every list the projection returns has one row per year, with the
    year column [1..years] in that order; for zero or a negative number of
    years it is the empty list. *)
Theorem projection_has_one_row_per_year
    (years : Z) (rows : list ProjectionRow) :
  calculate_cash_flow_projection price rental_income expenses down_payment
    loan_rate loan_term vacancy_rate appreciation_rate years
    annual_income_growth annual_expense_growth = Ok rows ->
  map year rows = range 1 (years + 1)
  /\ List.length rows = Z.to_nat years
  /\ ((years <= 0)%Z -> rows = []).
Proof.
  intro Hrows. apply calculate_cash_flow_projection_inv in Hrows.
  destruct Hrows as [mp [_ ->]]. split; [|split].
  - rewrite map_map. cbn [row_at year]. apply map_id.
  - rewrite length_map, range_length. f_equal. lia.
  - intro H. now rewrite range_empty by lia.
Qed.

(** X12: when the projection over [years] and the projection over
    [years + 1] both return, the longer one is the shorter one with the row
    of the new year appended. *)
Theorem projection_extends_by_one_row
    (years : Z) (rows rows' : list ProjectionRow) :
  (0 <= years)%Z ->
  calculate_cash_flow_projection price rental_income expenses down_payment
    loan_rate loan_term vacancy_rate appreciation_rate years
    annual_income_growth annual_expense_growth = Ok rows ->
  calculate_cash_flow_projection price rental_income expenses down_payment
    loan_rate loan_term vacancy_rate appreciation_rate (years + 1)
    annual_income_growth annual_expense_growth = Ok rows' ->
  exists row, rows' = (rows ++ [row])%list /\ year row = (years + 1)%Z.
Proof.
  intros Hy Hrows Hrows'.
  apply calculate_cash_flow_projection_inv in Hrows.
  destruct Hrows as [mp [Hmp ->]].
  apply calculate_cash_flow_projection_inv in Hrows'.
  destruct Hrows' as [mp' [Hmp' ->]].
  rewrite Hmp in Hmp'. injection Hmp' as <-.
  rewrite range_snoc, map_app by lia.
  eexists. split; reflexivity.
Qed.

(** X13: in every list the projection returns, from one year to the next
    the property value is multiplied by [1 + appreciation_rate/100], the
    income by [1 + annual_income_growth/100], the expenses by [1 +
    annual_expense_growth/100], and the mortgage column does not change. *)
Theorem projection_compounds_year_over_year
    (years t : Z) (rows : list ProjectionRow) :
  calculate_cash_flow_projection price rental_income expenses down_payment
    loan_rate loan_term vacancy_rate appreciation_rate years
    annual_income_growth annual_expense_growth = Ok rows ->
  (1 <= t < years)%Z ->
  exists r r',
    nth_error rows (Z.to_nat (t - 1)) = Some r
    /\ nth_error rows (Z.to_nat t) = Some r'
    /\ year r' = (year r + 1)%Z
    /\ property_value r' == property_value r * (1 + appreciation_rate / 100)
    /\ annual_income r' == annual_income r * (1 + annual_income_growth / 100)
    /\ annual_expenses r'
       == annual_expenses r * (1 + annual_expense_growth / 100)
    /\ annual_mortgage r' = annual_mortgage r.
Proof.
  intros Hrows Ht. apply calculate_cash_flow_projection_inv in Hrows.
  destruct Hrows as [mp [_ ->]].
  do 2 eexists.
  split; [rewrite nth_error_map, range_nth by lia; reflexivity|].
  split; [rewrite nth_error_map, range_nth by lia; reflexivity|].
  cbn [row_at year property_value annual_income annual_expenses
       annual_mortgage].
  replace (1 + Z.of_nat (Z.to_nat (t - 1)))%Z with t by lia.
  replace (1 + Z.of_nat (Z.to_nat t))%Z with (t + 1)%Z by lia.
  replace (t + 1 - 1)%Z with (t - 1 + 1)%Z by lia.
  rewrite !Qpower_plus' by lia.
  change (?x ^ 1) with x.
  split; [reflexivity|]. repeat split; ring.
Qed.

(** X14: when both functions return for the same property and loan, the
    first row of the projection agrees with the metrics: its cash flow and
    its cumulative cash flow are the [annual_cash_flow] of
    [calculate_metrics]. *)
Theorem projection_first_year_is_the_metrics_year
    (years : Z) (tax_rate closing_costs renovation_costs : Q)
    (m : Metrics) (rows : list ProjectionRow) :
  calculate_metrics price rental_income expenses down_payment loan_rate
    loan_term vacancy_rate appreciation_rate tax_rate closing_costs
    renovation_costs annual_income_growth annual_expense_growth = Ok m ->
  calculate_cash_flow_projection price rental_income expenses down_payment
    loan_rate loan_term vacancy_rate appreciation_rate years
    annual_income_growth annual_expense_growth = Ok rows ->
  (1 <= years)%Z ->
  exists row,
    nth_error rows 0 = Some row
    /\ row_annual_cash_flow row == annual_cash_flow m
    /\ cumulative_cash_flow row == annual_cash_flow m.
Proof.
  intros Hm Hrows Hy.
  apply calculate_metrics_inv in Hm. destruct Hm as [mp [Hmp ->]].
  apply calculate_cash_flow_projection_inv in Hrows.
  destruct Hrows as [mp' [Hmp' ->]].
  rewrite mortgage_payment_call_sites_agree, Hmp' in Hmp.
  injection Hmp as ->.
  eexists.
  split; [rewrite nth_error_map, range_nth by lia; reflexivity|].
  unfold metrics_record.
  cbn [row_at row_annual_cash_flow cumulative_cash_flow annual_cash_flow
       Z.of_nat Z.add Z.sub Z.opp Z.pos_sub Qpower inject_Z].
  split; ring.
Qed.

(** X15: when both functions return, the property value of the rows of
    year 5, 10 and 20, where the projection reaches them, are the three
    future values of [calculate_metrics]. *)
Theorem projection_values_are_the_future_values
    (years : Z) (tax_rate closing_costs renovation_costs : Q)
    (m : Metrics) (rows : list ProjectionRow) :
  calculate_metrics price rental_income expenses down_payment loan_rate
    loan_term vacancy_rate appreciation_rate tax_rate closing_costs
    renovation_costs annual_income_growth annual_expense_growth = Ok m ->
  calculate_cash_flow_projection price rental_income expenses down_payment
    loan_rate loan_term vacancy_rate appreciation_rate years
    annual_income_growth annual_expense_growth = Ok rows ->
  ((5 <= years)%Z ->
   option_map property_value (nth_error rows 4) = Some (future_value_5yr m))
  /\ ((10 <= years)%Z ->
      option_map property_value (nth_error rows 9)
      = Some (future_value_10yr m))
  /\ ((20 <= years)%Z ->
      option_map property_value (nth_error rows 19)
      = Some (future_value_20yr m)).
Proof.
  intros Hm Hrows.
  apply calculate_metrics_inv in Hm. destruct Hm as [mp [_ ->]].
  apply calculate_cash_flow_projection_inv in Hrows.
  destruct Hrows as [mp' [_ ->]].
  repeat split; intro H;
    rewrite nth_error_map, range_nth by lia; reflexivity.
Qed.

End ProjectionFurther.

(** X16: when both growth rates are zero every year has the same cash
    flow, and in every list the projection returns the cumulative column,
    the year's cash flow times the year number, is then the running sum of
    the cash flows of the years so far. *)
Theorem cumulative_is_the_running_sum_without_growth
    (price rental_income expenses down_payment loan_rate : Q) (loan_term : Z)
    (vacancy_rate appreciation_rate : Q) (years t : Z)
    (rows : list ProjectionRow) :
  calculate_cash_flow_projection price rental_income expenses down_payment
    loan_rate loan_term vacancy_rate appreciation_rate years 0 0 = Ok rows ->
  (1 <= t <= years)%Z ->
  exists row,
    nth_error rows (Z.to_nat (t - 1)) = Some row
    /\ cumulative_cash_flow row
       == Qsum (map row_annual_cash_flow (firstn (Z.to_nat t) rows)).
Proof.
  intros Hrows Ht. apply calculate_cash_flow_projection_inv in Hrows.
  destruct Hrows as [mp [_ Hrows]].
  set (c := rental_income * (1 - vacancy_rate / 100) * 12 - expenses * 12
            - mp * 12).
  assert (Hc : forall u,
             row_annual_cash_flow
               (row_at price rental_income expenses vacancy_rate
                  appreciation_rate 0 0 mp u) == c).
  { intro u. cbn [row_at row_annual_cash_flow].
    assert (E : 1 + 0 / 100 == 1) by reflexivity.
    rewrite E, Qpower_1. unfold c. ring. }
  eexists.
  split; [subst rows; rewrite nth_error_map, range_nth by lia; reflexivity|].
  rewrite (Qsum_constant row_annual_cash_flow c).
  - rewrite length_firstn. subst rows. rewrite length_map, range_length.
    replace (Init.Nat.min (Z.to_nat t) (Z.to_nat (years + 1 - 1)))
      with (Z.to_nat t) by lia.
    replace (Z.of_nat (Z.to_nat t)) with t by lia.
    replace (1 + Z.of_nat (Z.to_nat (t - 1)))%Z with t by lia.
    cbn [row_at cumulative_cash_flow].
    assert (E : 1 + 0 / 100 == 1) by reflexivity.
    rewrite E, Qpower_1. unfold c. ring.
  - intros x Hx. apply In_firstn in Hx. subst rows.
    apply in_map_iff in Hx. destruct Hx as [u [<- _]]. apply Hc.
Qed.

(** ** More on [analyze_risk] *)

Lemma tier_by_score {A : Type} (x lo hi : Q) (a b c : A) :
  tier x lo hi a b c = by_score (tier x lo hi 1 2 3)%Z a b c.
Proof.
  unfold tier, by_score.
  destruct (ltb x lo); [reflexivity|]. destruct (ltb x hi); reflexivity.
Qed.

Lemma market_tier_by_score {A : Type} (m : market_condition) (a b c : A) :
  market_tier m a b c = by_score (market_tier m 1 2 3)%Z a b c.
Proof.
  destruct m; reflexivity.
Qed.

Lemma tier_monotone (x y lo hi : Q) :
  x <= y -> (tier x lo hi 1 2 3 <= tier y lo hi 1 2 3)%Z.
Proof.
  intro H.
  destruct (tier_cases x lo hi) as [[Hx ->]|[[Hx [Hx' ->]]|[Hx [Hx' ->]]]];
    destruct (tier_cases y lo hi) as [[Hy ->]|[[Hy [Hy' ->]]|[Hy [Hy' ->]]]];
    try lia; exfalso; lra.
Qed.

Lemma quotient_monotone (x y d : Q) : 0 < d -> x <= y -> x / d <= y / d.
Proof.
  intros Hd H. unfold Qdiv. apply Qmult_le_compat_r; [exact H|].
  apply Qlt_le_weak. now apply Qinv_lt_0_compat.
Qed.

Lemma mean_of_five_below (s k : Z) :
  inject_Z s / 5 < inject_Z (2 * k + 1) / 10 <-> (s <= k)%Z.
Proof.
  assert (E1 : inject_Z s / 5 == inject_Z (2 * s) * (1 # 10))
    by (rewrite inject_Z_mult; field).
  assert (E2 : inject_Z (2 * k + 1) / 10 == inject_Z (2 * k + 1) * (1 # 10))
    by field.
  rewrite E1, E2. rewrite Qmult_lt_r by reflexivity.
  rewrite <- Zlt_Qlt. lia.
Qed.

Section RiskFurther.

Variables price vacancy_rate expenses rental_income : Q.
Variable market : market_condition.
Variable property_age : Q.
Variable location : string.

(** X17: [analyze_risk] raises [ZeroDivisionError] exactly when the
    monthly rent is zero, and returns an assessment exactly when it is
    not. *)
Theorem analyze_risk_raises_iff_no_rent :
  (analyze_risk price vacancy_rate expenses rental_income market property_age
     location = Raise ZeroDivisionError
   <-> rental_income == 0)
  /\ ((exists r,
         analyze_risk price vacancy_rate expenses rental_income market
           property_age location = Ok r)
      <-> ~ rental_income == 0).
Proof.
  split; split.
  - intro H. destruct (Qeq_dec rental_income 0) as [E0|E0]; [exact E0|].
    rewrite (analyze_risk_eq _ _ _ _ _ _ location E0) in H. discriminate.
  - apply analyze_risk_zero_rent.
  - intros [r H]. now apply analyze_risk_inv in H.
  - intro E. eexists. now apply analyze_risk_eq.
Qed.

(** X18: in an assessment the level, the style class and the total of the
    five scores go together: "Low" with "risk-low" and a total of at most
    8, "Medium" with "risk-medium" and a total from 9 to 11, "High" with
    "risk-high" and a total of 12 or more. *)
Theorem risk_level_follows_the_total_score :
  ~ rental_income == 0 ->
  exists r,
    analyze_risk price vacancy_rate expenses rental_income market property_age
      location = Ok r
    /\ let total := sum (map (fun kv => score (snd kv)) (factors r)) in
       (overall_risk r = "Low" /\ risk_class r = "risk-low"
        /\ (5 <= total <= 8)%Z)
       \/ (overall_risk r = "Medium" /\ risk_class r = "risk-medium"
           /\ (9 <= total <= 11)%Z)
       \/ (overall_risk r = "High" /\ risk_class r = "risk-high"
           /\ (12 <= total <= 15)%Z).
Proof.
  intro Hr. eexists. split; [now apply analyze_risk_eq|].
  unfold risk_record. cbn [factors overall_risk risk_class]. cbv zeta.
  cbn [risk_factors map snd score List.length Z.of_nat Pos.of_succ_nat
       Pos.succ sum fold_left Z.add].
  set (av := vacancy_rate + vacancy_impact (MARKET_CONDITIONS market)).
  set (pr := price / (rental_income * 12)).
  set (er := expenses * 12 / (rental_income * 12) * 100).
  pose proof (tier_in_range av 5 8) as B1.
  pose proof (tier_in_range pr 15 20) as B2.
  pose proof (tier_in_range er 35 45) as B3.
  pose proof (market_tier_in_range market) as B4.
  pose proof (tier_in_range property_age 10 30) as B5.
  set (total := (tier av 5 8 1 2 3 + tier pr 15 20 1 2 3
                 + tier er 35 45 1 2 3 + market_tier market 1 2 3
                 + tier property_age 10 30 1 2 3)%Z) in *.
  change (inject_Z 5) with 5.
  change (17 # 10) with (inject_Z (2 * 8 + 1) / 10).
  change (23 # 10) with (inject_Z (2 * 11 + 1) / 10).
  destruct (ltb (inject_Z total / 5) (inject_Z (2 * 8 + 1) / 10)) eqn:E1.
  - apply ltb_lt, mean_of_five_below in E1. left. repeat split; lia.
  - destruct (ltb (inject_Z total / 5) (inject_Z (2 * 11 + 1) / 10)) eqn:E2.
    + apply ltb_lt, mean_of_five_below in E2.
      assert (~ (total <= 8)%Z).
      { intro H. apply mean_of_five_below, ltb_lt in H. congruence. }
      right; left. repeat split; lia.
    + assert (~ (total <= 11)%Z).
      { intro H. apply mean_of_five_below, ltb_lt in H. congruence. }
      right; right. repeat split; lia.
Qed.

(** X19: the word in each factor's description agrees with its score, so
    with the level its card shows: the description and the score are
    chosen by two copies of the same comparison chain. *)
Theorem descriptions_agree_with_scores :
  ~ rental_income == 0 ->
  exists r fv fp fe fm fa,
    analyze_risk price vacancy_rate expenses rental_income market property_age
      location = Ok r
    /\ lookup "Vacancy Risk" (factors r) = Some fv
    /\ lookup "Price to Rent Ratio" (factors r) = Some fp
    /\ lookup "Expense Ratio" (factors r) = Some fe
    /\ lookup "Market Condition" (factors r) = Some fm
    /\ lookup "Property Age" (factors r) = Some fa
    /\ nth_error (description fv) 3
       = Some (Text (by_score (score fv) "low" "moderate" "high"))
    /\ nth_error (description fp) 3
       = Some (Text (by_score (score fp) "good" "fair" "poor"))
    /\ nth_error (description fe) 3
       = Some (Text (by_score (score fe) "favorable" "typical" "concerning"))
    /\ nth_error (description fm) 2
       = Some (Text (by_score (score fm) "low" "moderate" "high"))
    /\ nth_error (description fa) 2
       = Some (Text (by_score (score fa) "low" "moderate" "high")).
Proof.
  intro Hr. do 6 eexists. split; [now apply analyze_risk_eq|].
  unfold risk_record. cbn [factors]. cbv zeta. unfold risk_factors.
  do 5 (split; [reflexivity|]).
  cbn [description score nth_error].
  rewrite <- !tier_by_score, <- market_tier_by_score.
  repeat split; reflexivity.
Qed.

(** X20: with a positive rent, a property that is no cheaper, no less
    vacant, no less costly to run and no younger never gets a lower risk
    score, in the same market. *)
Theorem risk_score_is_monotone
    (price' vacancy_rate' expenses' property_age' : Q) (location' : string) :
  0 < rental_income ->
  price <= price' -> vacancy_rate <= vacancy_rate' ->
  expenses <= expenses' -> property_age <= property_age' ->
  exists r r',
    analyze_risk price vacancy_rate expenses rental_income market property_age
      location = Ok r
    /\ analyze_risk price' vacancy_rate' expenses' rental_income market
         property_age' location' = Ok r'
    /\ risk_score r <= risk_score r'.
Proof.
  intros Hr Hp Hv He Ha.
  assert (Hr0 : ~ rental_income == 0) by (intro E; rewrite E in Hr; lra).
  do 2 eexists. split; [now apply analyze_risk_eq|].
  split; [now apply analyze_risk_eq|].
  unfold risk_record. cbn [risk_score]. cbv zeta.
  cbn [risk_factors map snd score List.length Z.of_nat Pos.of_succ_nat
       Pos.succ sum fold_left Z.add].
  assert (Hd : 0 < rental_income * 12) by lra.
  apply quotient_monotone; [reflexivity|].
  rewrite <- Zle_Qle.
  pose proof (tier_monotone
                (vacancy_rate + vacancy_impact (MARKET_CONDITIONS market))
                (vacancy_rate' + vacancy_impact (MARKET_CONDITIONS market))
                5 8 ltac:(lra)).
  pose proof (tier_monotone (price / (rental_income * 12))
                (price' / (rental_income * 12)) 15 20
                (quotient_monotone _ _ _ Hd Hp)).
  assert (He' : expenses * 12 / (rental_income * 12) * 100
                <= expenses' * 12 / (rental_income * 12) * 100).
  { apply Qmult_le_compat_r; [|discriminate].
    apply quotient_monotone; [exact Hd | lra]. }
  pose proof (tier_monotone _ _ 35 45 He').
  pose proof (tier_monotone property_age property_age' 10 30 Ha).
  lia.
Qed.

End RiskFurther.

(** X21: the factor cards of the interface: the first column shows
    Vacancy Risk, Price to Rent Ratio and Expense Ratio, the second Market
    Condition and Property Age; every card's score is 1, 2 or 3, so the
    last branch of the card's conditional, "High", is taken for a score of
    3 only. *)
Theorem factor_cards_show_every_factor
    (price vacancy_rate expenses rental_income : Q)
    (market : market_condition) (property_age : Q) (location : string) :
  ~ rental_income == 0 ->
  exists r,
    analyze_risk price vacancy_rate expenses rental_income market property_age
      location = Ok r
    /\ map fst (firstn 3 (factors r))
       = ["Vacancy Risk"; "Price to Rent Ratio"; "Expense Ratio"]
    /\ map fst (skipn 3 (factors r)) = ["Market Condition"; "Property Age"]
    /\ Forall
         (fun kv =>
            let f := snd kv in
            (score f = 1%Z /\ factor_level f = "Low"
             /\ factor_class f = "risk-low")
            \/ (score f = 2%Z /\ factor_level f = "Medium"
                /\ factor_class f = "risk-medium")
            \/ (score f = 3%Z /\ factor_level f = "High"
                /\ factor_class f = "risk-high"))
         (factors r).
Proof.
  intro Hr. eexists. split; [now apply analyze_risk_eq|].
  unfold risk_record. cbn [factors]. cbv zeta. unfold risk_factors.
  do 2 (split; [reflexivity|]).
  assert (Hs : forall s d,
             (1 <= s <= 3)%Z ->
             let f := {| score := s; description := d |} in
             (score f = 1%Z /\ factor_level f = "Low"
              /\ factor_class f = "risk-low")
             \/ (score f = 2%Z /\ factor_level f = "Medium"
                 /\ factor_class f = "risk-medium")
             \/ (score f = 3%Z /\ factor_level f = "High"
                 /\ factor_class f = "risk-high")).
  { intros s d Hs. assert (E : s = 1%Z \/ s = 2%Z \/ s = 3%Z) by lia.
    destruct E as [ -> | [ -> | -> ] ]; cbv zeta;
      [left | right; left | right; right]; repeat split. }
  repeat (apply Forall_cons;
          [apply Hs; first [apply tier_in_range | apply market_tier_in_range]|]).
  apply Forall_nil.
Qed.

(** ** The form's down payment and the tax line *)

(** X22: with the down payment the form derives from its slider (1 to 100
    per cent of a positive price) and costs that are not negative, the
    amount borrowed is not negative, and in every dictionary the function
    returns the initial investment is positive, so [roi] is the quotient
    and never the zero of the guard; at 100 per cent there is no loan and
    the payment is 0. *)
Theorem form_down_payment_gives_a_real_roi
    (price rental_income expenses : Q) (down_payment_percent : Z)
    (loan_rate : Q) (loan_term : Z)
    (vacancy_rate appreciation_rate tax_rate : Q)
    (closing_costs renovation_costs g e : Q) (m : Metrics) :
  0 < price -> (1 <= down_payment_percent <= 100)%Z ->
  0 <= closing_costs -> 0 <= renovation_costs ->
  calculate_metrics price rental_income expenses
    (form_down_payment price down_payment_percent) loan_rate loan_term
    vacancy_rate appreciation_rate tax_rate closing_costs renovation_costs
    g e = Ok m ->
  0 <= price - form_down_payment price down_payment_percent
  /\ 0 < initial_investment m
  /\ roi m = annual_cash_flow m / initial_investment m * 100
  /\ (down_payment_percent = 100%Z -> mortgage_payment m = 0).
Proof.
  intros Hp Hpct Hc Hr Hm.
  apply calculate_metrics_inv in Hm. destruct Hm as [mp [Hmp ->]].
  assert (Hlo : 1 <= inject_Z down_payment_percent)
    by (change 1 with (inject_Z 1); rewrite <- Zle_Qle; lia).
  assert (Hhi : inject_Z down_payment_percent <= 100)
    by (change 100 with (inject_Z 100); rewrite <- Zle_Qle; lia).
  assert (E : form_down_payment price down_payment_percent
              == price * inject_Z down_payment_percent * (1 # 100))
    by (unfold form_down_payment; field).
  set (k := inject_Z down_payment_percent) in *.
  assert (Hdp : 0 < form_down_payment price down_payment_percent)
    by (rewrite E; nra).
  assert (Hloan : 0 <= price - form_down_payment price down_payment_percent)
    by (rewrite E; nra).
  unfold metrics_record.
  cbn [initial_investment roi annual_cash_flow mortgage_payment].
  set (dp := form_down_payment price down_payment_percent) in *.
  assert (Hii : 0 < dp + closing_costs + renovation_costs) by lra.
  split; [exact Hloan|]. split; [exact Hii|]. split.
  - now rewrite (proj2 (ltb_lt 0 _) Hii).
  - intro H100. subst down_payment_percent.
    assert (H0 : price - dp <= 0).
    { rewrite E. subst k. change (inject_Z 100) with 100.
      assert (price * 100 * (1 # 100) == price) by field. lra. }
    rewrite (metrics_mortgage_payment_none price dp loan_rate loan_term
               (or_introl H0)) in Hmp.
    now injection Hmp as <-.
Qed.

(** X23: in every dictionary the function returns the after-tax cash flow
    is not below the annual cash flow, and equals it when the tax rate is
    zero: "tax savings" are only ever added. *)
Theorem after_tax_cash_flow_is_not_below_cash_flow
    (price rental_income expenses down_payment loan_rate : Q) (loan_term : Z)
    (vacancy_rate appreciation_rate tax_rate : Q)
    (closing_costs renovation_costs g e : Q) (m : Metrics) :
  calculate_metrics price rental_income expenses down_payment loan_rate
    loan_term vacancy_rate appreciation_rate tax_rate closing_costs
    renovation_costs g e = Ok m ->
  annual_cash_flow m <= after_tax_cash_flow m
  /\ (tax_rate == 0 -> after_tax_cash_flow m == annual_cash_flow m).
Proof.
  intro Hm. apply calculate_metrics_inv in Hm. destruct Hm as [mp [_ ->]].
  unfold metrics_record.
  cbn [annual_cash_flow after_tax_cash_flow].
  set (acf := (rental_income * (1 - vacancy_rate / 100) - expenses - mp) * 12).
  set (ti := rental_income * (1 - vacancy_rate / 100) * 12 - expenses * 12
             - (price - price * (2 # 10)) / (275 # 10)
             - mp * 12 * loan_rate / 100).
  pose proof (max_ge_l 0 (ti * tax_rate / 100)) as Hmax.
  split; [lra|].
  intro Ht. unfold max.
  destruct (ltb 0 (ti * tax_rate / 100)) eqn:E; [|ring].
  apply ltb_lt in E. exfalso.
  assert (E0 : ti * tax_rate / 100 == 0) by (rewrite Ht; field). lra.
Qed.

(** ** Further concrete runs *)

Lemma payment_is_not_negative_on_a_one_year_loan :
  exists m,
    calculate_metrics 100000 1000 300 20000 6 1 5 3 25 3000 0 2 3 = Ok m
    /\ 0 <= mortgage_payment m.
Proof.
  destruct (calculate_metrics 100000 1000 300 20000 6 1 5 3 25 3000 0 2 3)
    as [m|err] eqn:E; [|vm_compute in E; discriminate].
  exists m. split; [reflexivity|].
  exact (proj1 (mortgage_payment_never_negative _ _ _ _ _ _ _ _ _ _ _ _ _ m
                  E)).
Defined.

Lemma payment_exceeds_interest_on_a_one_year_loan :
  exists m,
    calculate_metrics 100000 1000 300 20000 6 1 5 3 25 3000 0 2 3 = Ok m
    /\ 400 <= mortgage_payment m.
Proof.
  destruct (calculate_metrics 100000 1000 300 20000 6 1 5 3 25 3000 0 2 3)
    as [m|err] eqn:E; [|vm_compute in E; discriminate].
  exists m. split; [reflexivity|].
  pose proof (mortgage_payment_exceeds_interest 100000 1000 300 20000 6 1 5
                3 25 3000 0 2 3 m ltac:(reflexivity) ltac:(reflexivity)
                ltac:(reflexivity) E) as H.
  eapply Qle_trans; [|exact H]. vm_compute. discriminate.
Defined.

Lemma break_even_times_cash_flow_of_an_all_cash_purchase :
  exists m b,
    calculate_metrics 100000 1000 300 100000 0 30 5 3 25 3000 0 2 3 = Ok m
    /\ break_even_months m = Finite b
    /\ b * monthly_cash_flow m == initial_investment m.
Proof.
  destruct (calculate_metrics 100000 1000 300 100000 0 30 5 3 25 3000 0 2 3)
    as [m|err] eqn:E; [|vm_compute in E; discriminate].
  destruct (break_even_recovers_the_investment _ _ _ _ _ _ _ _ _ _ _ _ _ m E)
    as (b & Hb & Hprod & _).
  { vm_compute in E. injection E as <-. reflexivity. }
  exists m, b. split; [reflexivity|]. split; assumption.
Defined.

Lemma break_even_is_finite_for_an_all_cash_purchase :
  exists m,
    calculate_metrics 100000 1000 300 100000 0 30 5 3 25 3000 0 2 3 = Ok m
    /\ (0 < roi m <-> ne_inf (break_even_months m) = true).
Proof.
  destruct (calculate_metrics 100000 1000 300 100000 0 30 5 3 25 3000 0 2 3)
    as [m|err] eqn:E; [|vm_compute in E; discriminate].
  exists m. split; [reflexivity|].
  apply (proj2 (break_even_finite_iff_roi_positive _ _ _ _ _ _ _ _ _ _ _ _ _
                  m E)).
  vm_compute in E. injection E as <-. reflexivity.
Defined.

Lemma cap_rate_with_and_without_a_loan :
  exists m m',
    calculate_metrics 100000 1000 300 100000 0 30 5 3 25 3000 0 2 3 = Ok m
    /\ calculate_metrics 100000 1000 300 20000 6 1 5 4 30 0 500 0 0 = Ok m'
    /\ cap_rate m = cap_rate m'.
Proof.
  destruct (calculate_metrics 100000 1000 300 100000 0 30 5 3 25 3000 0 2 3)
    as [m|err] eqn:E; [|vm_compute in E; discriminate].
  destruct (calculate_metrics 100000 1000 300 20000 6 1 5 4 30 0 500 0 0)
    as [m'|err] eqn:E'; [|vm_compute in E'; discriminate].
  exists m, m'. do 2 (split; [reflexivity|]).
  exact (cap_rate_ignores_financing _ _ _ _ _ _ _ _ _ _ _ _ _ _ _ _ _ _ _ _
           _ _ m m' E E').
Defined.

Lemma future_values_of_a_rising_market :
  exists m,
    calculate_metrics 100000 1000 300 100000 0 30 5 3 25 3000 0 2 3 = Ok m
    /\ 100000 <= future_value_5yr m
    /\ future_value_5yr m <= future_value_10yr m
    /\ future_value_10yr m <= future_value_20yr m.
Proof.
  destruct (calculate_metrics 100000 1000 300 100000 0 30 5 3 25 3000 0 2 3)
    as [m|err] eqn:E; [|vm_compute in E; discriminate].
  exists m. split; [reflexivity|].
  assert (Hp : 0 <= 100000) by discriminate.
  apply (proj1 (future_values_are_ordered 100000 1000 300 100000 0 30 5 3 25
                  3000 0 2 3 m Hp E)).
  discriminate.
Defined.

Lemma equity_of_a_seven_year_loan :
  exists m,
    calculate_metrics 100000 1000 300 20000 6 7 5 3 25 3000 0 2 3 = Ok m
    /\ total_equity_5yr m = future_value_5yr m - (100000 - 20000)
    /\ total_equity_10yr m = future_value_10yr m.
Proof.
  destruct (calculate_metrics 100000 1000 300 20000 6 7 5 3 25 3000 0 2 3)
    as [m|err] eqn:E; [|vm_compute in E; discriminate].
  exists m. split; [reflexivity|].
  destruct (equity_subtracts_the_whole_loan_or_nothing _ _ _ _ _ _ _ _ _ _ _
              _ _ m E) as (H5 & _ & _ & H10 & _).
  split; [apply H5 | apply H10]; lia.
Defined.

Lemma value_change_of_a_free_property :
  exists m,
    calculate_metrics 0 1000 300 0 6 30 5 3 25 3000 0 2 3 = Ok m
    /\ value_change_percent (future_value_5yr m) 0
       = Raise ZeroDivisionError.
Proof.
  destruct (calculate_metrics 0 1000 300 0 6 30 5 3 25 3000 0 2 3)
    as [m|err] eqn:E; [|vm_compute in E; discriminate].
  exists m. split; [reflexivity|].
  apply (proj1 (value_change_raises_on_zero_price _ _ _ _ _ _ _ _ _ _ _ _ _
                  m E)).
  reflexivity.
Defined.

Lemma projection_years_of_three :
  exists rows,
    calculate_cash_flow_projection 200000 1500 400 200000 0 30 5 3 3 2 3
    = Ok rows
    /\ map year rows = [1; 2; 3]%Z.
Proof.
  destruct (calculate_cash_flow_projection 200000 1500 400 200000 0 30 5 3 3
              2 3) as [rows|err] eqn:E; [|vm_compute in E; discriminate].
  exists rows. split; [reflexivity|].
  exact (proj1 (projection_has_one_row_per_year _ _ _ _ _ _ _ _ _ _ 3 rows
                  E)).
Defined.

Lemma projection_of_two_years_extends_to_three :
  exists rows rows' row,
    calculate_cash_flow_projection 200000 1500 400 200000 0 30 5 3 2 2 3
    = Ok rows
    /\ calculate_cash_flow_projection 200000 1500 400 200000 0 30 5 3 3 2 3
       = Ok rows'
    /\ rows' = (rows ++ [row])%list
    /\ year row = 3%Z.
Proof.
  destruct (calculate_cash_flow_projection 200000 1500 400 200000 0 30 5 3 2
              2 3) as [rows|err] eqn:E; [|vm_compute in E; discriminate].
  destruct (calculate_cash_flow_projection 200000 1500 400 200000 0 30 5 3 3
              2 3) as [rows'|err] eqn:E'; [|vm_compute in E'; discriminate].
  destruct (projection_extends_by_one_row 200000 1500 400 200000 0 30 5 3 2 3
              2 rows rows' ltac:(lia) E E') as (row & H1 & H2).
  exists rows, rows', row. repeat split; assumption.
Defined.

Lemma projection_compounds_from_year_1_to_2 :
  exists rows r r',
    calculate_cash_flow_projection 200000 1500 400 200000 0 30 5 3 3 2 3
    = Ok rows
    /\ nth_error rows 0 = Some r
    /\ nth_error rows 1 = Some r'
    /\ property_value r' == property_value r * (1 + 3 / 100).
Proof.
  destruct (calculate_cash_flow_projection 200000 1500 400 200000 0 30 5 3 3
              2 3) as [rows|err] eqn:E; [|vm_compute in E; discriminate].
  destruct (projection_compounds_year_over_year 200000 1500 400 200000 0 30 5
              3 2 3 3 1 rows E) as (r & r' & H2 & H3 & _ & H4 & _); [lia|].
  exists rows, r, r'. repeat split; assumption.
Defined.

Lemma projection_first_year_of_sample :
  exists m rows row,
    calculate_metrics 200000 1500 400 200000 0 30 5 3 25 6000 0 2 3 = Ok m
    /\ calculate_cash_flow_projection 200000 1500 400 200000 0 30 5 3 3 2 3
       = Ok rows
    /\ nth_error rows 0 = Some row
    /\ row_annual_cash_flow row == annual_cash_flow m.
Proof.
  destruct (calculate_metrics 200000 1500 400 200000 0 30 5 3 25 6000 0 2 3)
    as [m|err] eqn:Em; [|vm_compute in Em; discriminate].
  destruct (calculate_cash_flow_projection 200000 1500 400 200000 0 30 5 3 3
              2 3) as [rows|err] eqn:Er; [|vm_compute in Er; discriminate].
  destruct (projection_first_year_is_the_metrics_year 200000 1500 400 200000
              0 30 5 3 2 3 3 25 6000 0 m rows Em Er)
    as (row & H3 & H4 & _); [lia|].
  exists m, rows, row. repeat split; assumption.
Defined.

Lemma projection_value_of_year_5 :
  exists m rows,
    calculate_metrics 200000 1500 400 200000 0 30 5 3 25 6000 0 2 3 = Ok m
    /\ calculate_cash_flow_projection 200000 1500 400 200000 0 30 5 3 5 2 3
       = Ok rows
    /\ option_map property_value (nth_error rows 4)
       = Some (future_value_5yr m).
Proof.
  destruct (calculate_metrics 200000 1500 400 200000 0 30 5 3 25 6000 0 2 3)
    as [m|err] eqn:Em; [|vm_compute in Em; discriminate].
  destruct (calculate_cash_flow_projection 200000 1500 400 200000 0 30 5 3 5
              2 3) as [rows|err] eqn:Er; [|vm_compute in Er; discriminate].
  exists m, rows. do 2 (split; [reflexivity|]).
  apply (proj1 (projection_values_are_the_future_values 200000 1500 400
                  200000 0 30 5 3 2 3 5 25 6000 0 m rows Em Er)).
  lia.
Defined.

Lemma running_sum_over_three_flat_years :
  exists rows row,
    calculate_cash_flow_projection 200000 1500 400 200000 0 30 5 3 3 0 0
    = Ok rows
    /\ nth_error rows 2 = Some row
    /\ cumulative_cash_flow row
       == Qsum (map row_annual_cash_flow (firstn 3 rows)).
Proof.
  destruct (calculate_cash_flow_projection 200000 1500 400 200000 0 30 5 3 3
              0 0) as [rows|err] eqn:E; [|vm_compute in E; discriminate].
  destruct (cumulative_is_the_running_sum_without_growth 200000 1500 400
              200000 0 30 5 3 3 3 rows E) as (row & H1 & H2); [lia|].
  exists rows, row. repeat split; assumption.
Defined.

Lemma form_down_payment_of_20_percent :
  exists m,
    calculate_metrics 300000 2000 600 (form_down_payment 300000 20) 0 30 5 3
      25 9000 0 2 3 = Ok m
    /\ 0 < initial_investment m.
Proof.
  destruct (calculate_metrics 300000 2000 600 (form_down_payment 300000 20) 0
              30 5 3 25 9000 0 2 3)
    as [m|err] eqn:E; [|vm_compute in E; discriminate].
  exists m. split; [reflexivity|].
  destruct (form_down_payment_gives_a_real_roi 300000 2000 600 20 0 30 5 3 25
              9000 0 2 3 m) as (_ & Hi & _);
    [reflexivity | lia | discriminate | discriminate | exact E | exact Hi].
Defined.

Lemma after_tax_cash_flow_of_an_all_cash_purchase :
  exists m,
    calculate_metrics 100000 1000 300 100000 0 30 5 3 25 3000 0 2 3 = Ok m
    /\ annual_cash_flow m <= after_tax_cash_flow m.
Proof.
  destruct (calculate_metrics 100000 1000 300 100000 0 30 5 3 25 3000 0 2 3)
    as [m|err] eqn:E; [|vm_compute in E; discriminate].
  exists m. split; [reflexivity|].
  exact (proj1 (after_tax_cash_flow_is_not_below_cash_flow _ _ _ _ _ _ _ _ _
                  _ _ _ _ m E)).
Defined.

Lemma risk_level_of_sample_house :
  exists r,
    analyze_risk 300000 5 600 2000 Stable 15 "Suburban" = Ok r
    /\ overall_risk r = "Low".
Proof.
  destruct (risk_level_follows_the_total_score 300000 5 600 2000 Stable 15
              "Suburban") as [r [Hr H]];
    [intro E; vm_compute in E; discriminate|].
  exists r. split; [exact Hr|].
  vm_compute in Hr. injection Hr as <-. reflexivity.
Defined.

Lemma descriptions_of_sample_house :
  exists r, analyze_risk 300000 5 600 2000 Stable 15 "Suburban" = Ok r.
Proof.
  destruct (descriptions_agree_with_scores 300000 5 600 2000 Stable 15
              "Suburban") as (r & _ & _ & _ & _ & _ & Hr & _);
    [intro E; vm_compute in E; discriminate|].
  exists r. exact Hr.
Defined.

Lemma older_costlier_house_is_no_safer :
  exists r r',
    analyze_risk 300000 5 600 2000 Stable 15 "Suburban" = Ok r
    /\ analyze_risk 450000 7 900 2000 Stable 35 "Urban" = Ok r'
    /\ risk_score r <= risk_score r'.
Proof.
  apply (risk_score_is_monotone 300000 5 600 2000 Stable 15 "Suburban"
           450000 7 900 35 "Urban");
    first [reflexivity | discriminate].
Defined.

Lemma factor_cards_of_sample_house :
  exists r,
    analyze_risk 300000 5 600 2000 Stable 15 "Suburban" = Ok r
    /\ map fst (skipn 3 (factors r)) = ["Market Condition"; "Property Age"].
Proof.
  destruct (factor_cards_show_every_factor 300000 5 600 2000 Stable 15
              "Suburban") as (r & Hr & _ & H & _);
    [intro E; vm_compute in E; discriminate|].
  exists r. split; assumption.
Defined.
